(** * f5-icontrol-rest: the transactional request/response core

    A shallow embedding of [IControlRestClient] (dispatcher, transaction
    lifecycle, resource operations and path helpers),
    [IControlRestResponse], [IControlRestError] and of the [iControlRest]
    factory.

    JavaScript values are an inductive type, objects are association
    lists kept in property-enumeration order, the mutable client field
    [transactionId] and the list of requests handed to the transport
    form an explicit state, and a promise is represented by the way it
    settles. *)

From Stdlib Require Import String Ascii List ZArith Bool Lia.
From Stdlib Require Import DecimalString.
Import ListNotations.
Local Open Scope string_scope.
Local Open Scope Z_scope.
Set Warnings "-register-all".

(** ** JavaScript values *)

Module Js.

(** [VClient] is a reference to the [IControlRestClient] instance that
    runs the call (the [client] / [this] of the source).  Numbers are
    the integral ones; no operation modelled here computes on them. *)
Inductive value : Type :=
| VUndef
| VNull
| VBool (b : bool)
| VNum (n : Z)
| VStr (s : string)
| VObj (fields : list (string * value))
| VClient.

Definition obj : Type := list (string * value).

(** ToBoolean. *)
Definition truthy (v : value) : bool :=
  match v with
  | VUndef | VNull => false
  | VBool b => b
  | VNum n => negb (n =? 0)
  | VStr s => negb (s =? "")%string
  | VObj _ | VClient => true
  end.

(** ToString, as a template literal applies it. *)
Definition toString (v : value) : string :=
  match v with
  | VUndef => "undefined"
  | VNull => "null"
  | VBool true => "true"
  | VBool false => "false"
  | VNum n => NilZero.string_of_int (Z.to_int n)
  | VStr s => s
  | VObj _ | VClient => "[object Object]"
  end.

(** [a || b]. *)
Definition or_else (a b : value) : value := if truthy a then a else b.

(** Own-property lookup; the first binding of a key is the live one. *)
Fixpoint lookup (k : string) (o : obj) : option value :=
  match o with
  | [] => None
  | (k', v) :: o' => if (k =? k')%string then Some v else lookup k o'
  end.

Definition has (k : string) (o : obj) : bool :=
  match lookup k o with Some _ => true | None => false end.

(** [o[k]] on an object: [undefined] when the property is missing. *)
Definition get (k : string) (o : obj) : value :=
  match lookup k o with Some v => v | None => VUndef end.

(** [o[k] = v]: an existing property keeps its place, a new one goes to
    the end of the enumeration order. *)
Fixpoint set (k : string) (v : value) (o : obj) : obj :=
  match o with
  | [] => [(k, v)]
  | (k', v') :: o' =>
      if (k =? k')%string then (k, v) :: o' else (k', v') :: set k v o'
  end.

Definition keys (o : obj) : list string := map fst o.

(** [Object.assign(target, source)]. *)
Definition assign (target source : obj) : obj :=
  fold_left (fun t kv => set (fst kv) (snd kv) t) source target.

(** [v[k]] / [v.k] on an arbitrary value: [None] is the TypeError that
    reading a property of [undefined] or [null] raises; a primitive has
    none of the properties this program reads. *)
Definition get_prop (v : value) (k : string) : option value :=
  match v with
  | VUndef | VNull => None
  | VObj o => Some (get k o)
  | _ => Some VUndef
  end.

Definition as_obj (v : value) : obj :=
  match v with VObj o => o | _ => [] end.

(** [s.endsWith(suf)] *)
Definition endsWith (s suf : string) : bool :=
  let n := String.length s in
  let m := String.length suf in
  (m <=? n)%nat && (substring (n - m) m s =? suf)%string.

(** [s.substr(0, s.length - suf.length)] *)
Definition dropSuffix (s suf : string) : string :=
  substring 0 (String.length s - String.length suf) s.

End Js.
Import Js.

(** ** Errors and promise settlement *)

(** [new Error(msg)] and the engine's TypeError are told apart from the
    library's own [IControlRestError], whose instance is kept as the
    object of its own properties. *)
(** The string of a [TypeError] only names the read that failed. *)
Inductive error : Type :=
| Error (message : string)
| TypeError (message : string)
| RestError (own : obj).

(** A synchronous call returns or throws. *)
Inductive completion (A : Type) : Type :=
| Return (a : A)
| Throw (e : error).
Arguments Return {A} a.
Arguments Throw {A} e.

(** How the promise of an [async] call ends.  [Uncaught] is an exception
    raised inside the transport callback: it is outside every promise
    executor, so the promise stays pending and the exception reaches the
    event loop. *)
Inductive settled (A : Type) : Type :=
| Resolved (a : A)
| Rejected (e : error)
| Uncaught (e : error).
Arguments Resolved {A} a.
Arguments Rejected {A} e.
Arguments Uncaught {A} e.

(** ** IControlRestError *)

Definition COORD : string := "X-F5-REST-Coordination-Id".

(** [constructor(params)]: destructures [message], [httpStatus] and
    [client]; [super(message)] stores the message, converted to a
    string, unless it is [undefined]; then [this.httpStatus] is set. *)
Definition IControlRestError (params : obj) : obj :=
  let message := get "message" params in
  let httpStatus := get "httpStatus" params in
  let this := match message with
              | VUndef => []
              | m => [("message", VStr (toString m))]
              end in
  set "httpStatus" httpStatus this.

(** [err.message]: the own property, else [Error.prototype.message]. *)
Definition error_message (e : obj) : value :=
  match lookup "message" e with Some m => m | None => VStr "" end.

(** ** IControlRestResponse *)

(** The transport's response object [r]; only its status code is read. *)
Record response : Type := { statusCode : Z }.

(** [new IControlRestResponse({request, data, client})]. *)
Record IControlRestResponse : Type := {
  env_request : response;
  env_data : value;
  env_client : value
}.

(** What the transport hands to the callback [(e, r, obj)]: an error
    object with its [message], or a response with the parsed body. *)
Inductive outcome : Type :=
| NoResponse (message : value)
| Response (r : response) (body : value).

(** ** IControlRestClient *)

(** [params] and [options] are fixed at construction. *)
Record client : Type := {
  params : obj;
  options : obj
}.

(** The mutable part: the [transactionId] field and, in call order, the
    option objects passed to the transport. *)
Record state : Type := {
  transactionId : value;
  sent : list obj
}.

(** [{method, uri, data, ignoreTransaction}] *)
Record descriptor : Type := {
  method : value;
  uri : value;
  data : value;
  ignoreTransaction : value
}.

Definition async (A : Type) : Type := state -> state * settled A.

Definition ret {A} (a : A) : async A := fun s => (s, Resolved a).
Definition reject {A} (e : error) : async A := fun s => (s, Rejected e).
Definition bind {A B} (m : async A) (k : A -> async B) : async B :=
  fun s =>
    match m s with
    | (s', Resolved a) => k a s'
    | (s', Rejected e) => (s', Rejected e)
    | (s', Uncaught e) => (s', Uncaught e)
    end.
Definition setTid (v : value) : async unit :=
  fun s => ({| transactionId := v; sent := sent s |}, Resolved tt).

Notation "x <- m ;; k" := (bind m (fun x => k))
  (at level 61, m at next level, right associativity).

Definition strict_true (v : value) : bool :=
  match v with VBool true => true | _ => false end.

Definition is_null (v : value) : bool :=
  match v with VNull => true | _ => false end.

Section Client.

(** The network: the answer to a request may depend on the requests
    already sent. *)
Variable transport : list obj -> obj -> outcome.

Variable c : client.

(** [setTransactionId(tid)] *)
Definition setTransactionId (tid : value) (s : state) : state :=
  {| transactionId := tid; sent := sent s |}.

(** [isInTransactionMode()]: [this.transactionId !== null]. *)
Definition isInTransactionMode (s : state) : bool :=
  negb (is_null (transactionId s)).

(** [getTransactionId()] *)
Definition getTransactionId (s : state) : completion value :=
  if negb (isInTransactionMode s)
  then Throw (Error "Bad operation, client is not in transaction mode")
  else Return (transactionId s).

(** The [headers] object of [request]. *)
Definition request_headers (d : descriptor) (s : state) : obj :=
  if truthy (transactionId s) && negb (strict_true (ignoreTransaction d))
  then [(COORD, transactionId s)]
  else [].

(** The options computed by [request] before the overlay is applied. *)
Definition computed_options (d : descriptor) (s : state) : obj :=
  let o := [ ("method", method d);
             ("url", VStr (toString (get "url" (params c)) ++ toString (uri d)));
             ("auth", VObj [ ("user", get "user" (params c));
                             ("pass", get "pass" (params c)) ]);
             ("headers", VObj (request_headers d s));
             ("timeout", VNum 2000);
             ("json", VBool true);
             ("strictSSL", get "strict" (params c)) ] in
  if truthy (data d) then set "body" (data d) o else o.

(** [Object.assign({}, options, this.options)] *)
Definition request_options (d : descriptor) (s : state) : obj :=
  assign (assign [] (computed_options d s)) (options c).

(** The callback [(e, r, obj) => ...] of [request]. *)
Definition classify (o : outcome) : settled IControlRestResponse :=
  match o with
  | NoResponse m =>
      Rejected (RestError
        (IControlRestError [("message", m); ("client", VClient)]))
  | Response r body =>
      if negb (statusCode r =? 0) && negb (statusCode r =? 200)
      then match get_prop body "message" with
           | None =>
               Uncaught (TypeError "obj.message: obj is undefined or null")
           | Some m =>
               Rejected (RestError
                 (IControlRestError [ ("message", m);
                                      ("httpStatus", VNum (statusCode r));
                                      ("client", VClient) ]))
           end
      else Resolved {| env_request := r; env_data := body; env_client := VClient |}
  end.

(** [options.headers['X-F5-REST-Coordination-Id']] of an options object
    given to the transport; [None] when the header is not there. *)
Definition coordination_header (o : obj) : option value :=
  lookup COORD (as_obj (get "headers" o)).

(** [request(reqParams)] *)
Definition request (d : descriptor) : async IControlRestResponse :=
  fun s =>
    let o := request_options d s in
    ({| transactionId := transactionId s; sent := sent s ++ [o] |},
     classify (transport (sent s) o)).

(** [beginTransaction()] *)
Definition beginTransaction : async value :=
  fun s =>
    if isInTransactionMode s
    then reject (Error "Bad operation, client is already in transaction mode") s
    else
      (res <- request {| method := VStr "POST";
                         uri := VStr "/mgmt/tm/transaction";
                         data := VObj [];
                         ignoreTransaction := VUndef |} ;;
       match get_prop (env_data res) "transId" with
       | None => reject (TypeError "res.data.transId: res.data is undefined or null")
       | Some t => _ <- setTid t ;; ret VClient
       end) s.

(** [commitTransaction()] *)
Definition commitTransaction : async IControlRestResponse :=
  fun s =>
    if negb (isInTransactionMode s)
    then reject (Error "Bad operation, client is not in transaction mode") s
    else
      let tid := toString (transactionId s) in
      (_ <- setTid VNull ;;
       request {| method := VStr "PATCH";
                  uri := VStr ("/mgmt/tm/transaction/" ++ tid);
                  data := VObj [("state", VStr "VALIDATING")];
                  ignoreTransaction := VUndef |}) s.

(** [rollbackTransaction(transactionId)] *)
Definition rollbackTransaction (tid : value) : async IControlRestResponse :=
  fun s =>
    if isInTransactionMode s
    then reject (Error "Bad operation, client is in transaction mode") s
    else
      request {| method := VStr "DELETE";
                 uri := VStr ("/mgmt/tm/transaction/" ++ toString tid);
                 data := VUndef;
                 ignoreTransaction := VUndef |} s.

(** [getTransactionCommands()] *)
Definition getTransactionCommands : async IControlRestResponse :=
  fun s =>
    request {| method := VStr "GET";
               uri := VStr ("/mgmt/tm/transaction/"
                            ++ toString (transactionId s) ++ "/commands");
               data := VUndef;
               ignoreTransaction := VUndef |} s.

(** [ltmCreatePool(datas)], the resource call used in the end-to-end
    scenario. *)
Definition ltmCreatePool (datas : value) : async IControlRestResponse :=
  request {| method := VStr "POST";
             uri := VStr "/mgmt/tm/ltm/pool";
             data := datas;
             ignoreTransaction := VUndef |}.

(** *** IControlRestResponse.expand *)

(** [urlmod.parse(link, true)]: the [pathname] and [search] of the
    parsed URL, each a string or [null]. *)
Variable urlparse : string -> value * value.

(** The two payloads [expand] touches: [this.data], and the [data]
    argument when it is an object other than [this.data].  With
    [arg_data = None] the local [data] is the object [this.data] itself
    (no argument, a falsy one, or [this.data] passed back in), so a
    write through [data] is seen by the next read of [this.data]. *)
Record payloads : Type := {
  this_data : value;
  arg_data : option obj
}.

(** The keys [for (const key in data)] visits: those present when the
    loop starts; a property added by the loop body is not visited. *)
Definition expand_keys (p : payloads) : list string :=
  match arg_data p with
  | Some d => keys d
  | None => match this_data p with VObj o => keys o | _ => [] end
  end.

(** [data[newKey] = expandedData] *)
Definition write_data (k : string) (v : value) (p : payloads) : payloads :=
  match arg_data p with
  | Some d => {| this_data := this_data p; arg_data := Some (set k v d) |}
  | None =>
      match this_data p with
      | VObj o => {| this_data := VObj (set k v o); arg_data := None |}
      | _ => p
      end
  end.

Definition REFERENCE : string := "Reference".

(** [val && val.link !== undefined], giving the link. *)
Definition reference_link (val : value) : option value :=
  if truthy val
  then match get_prop val "link" with
       | Some VUndef | None => None
       | Some l => Some l
       end
  else None.

(** The descriptor of the auxiliary call: [uri] is
    [`${url.pathname}${url.search}`]. *)
Definition fetch (link : string) : descriptor :=
  let (pathname, search) := urlparse link in
  {| method := VStr "GET";
     uri := VStr (toString pathname ++ toString search);
     data := VUndef;
     ignoreTransaction := VBool true |}.

(** One turn of the loop body. *)
Definition expand_key (key : string) (p : payloads) (s : state)
  : payloads * state * settled unit :=
  match get_prop (this_data p) key with
  | None => (p, s, Rejected (TypeError "this.data[key]: this.data is undefined or null"))
  | Some val =>
      if endsWith key REFERENCE
      then match reference_link val with
           | None => (p, s, Resolved tt)
           | Some (VStr link) =>
               match request (fetch link) s with
               | (s', Resolved expanded) =>
                   (write_data (dropSuffix key REFERENCE) (env_data expanded) p,
                    s', Resolved tt)
               | (s', Rejected e) => (p, s', Rejected e)
               | (s', Uncaught e) => (p, s', Uncaught e)
               end
           | Some _ =>
               (p, s, Rejected (TypeError "urlmod.parse: the url must be a string"))
           end
      else (p, s, Resolved tt)
  end.

Fixpoint expand_loop (ks : list string) (p : payloads) (s : state)
  : payloads * state * settled unit :=
  match ks with
  | [] => (p, s, Resolved tt)
  | k :: ks' =>
      match expand_key k p s with
      | (p', s', Resolved _) => expand_loop ks' p' s'
      | r => r
      end
  end.

(** [expand(data)] *)
Definition expand (p : payloads) (s : state) : payloads * state * settled unit :=
  expand_loop (expand_keys p) p s.

(** [expand] on the envelope's own payload object. *)
Definition own (o : obj) : payloads :=
  {| this_data := VObj o; arg_data := None |}.

Definition is_reference (val : value) : bool :=
  match reference_link val with Some _ => true | None => false end.

(** The keys among [ks] that follow the reference convention in [o]. *)
Definition references (o : obj) (ks : list string) : list string :=
  filter (fun k => endsWith k REFERENCE && is_reference (get k o)) ks.

(** No key of [ks] ends in "ReferenceReference": stripping the suffix
    from a key that has it gives a name without it. *)
Definition unchained (ks : list string) : Prop :=
  forall k, In k ks -> endsWith k REFERENCE = true ->
            endsWith (dropSuffix k REFERENCE) REFERENCE = false.

End Client.

(** ** The factory *)

Section Factory.

(** [validator.isURL] on a string. *)
Variable isURL : string -> bool.

(** [iControlRest(params)] up to the [return]: the checked and
    completed [params] that the returned [client] closure captures. *)
Definition iControlRest (p : value) : completion obj :=
  let params := as_obj (or_else p (VObj [])) in
  match get "url" params with
  | VUndef => Throw (Error "Bad params, url is missing")
  | VStr u =>
      if negb (isURL u) then Throw (Error "Bad params, url is invalid")
      else if endsWith u "/" then Throw (Error "Bad params, url can NOT end with a /")
      else match get "user" params with
           | VUndef => Throw (Error "Bad params, user is required")
           | _ =>
               match get "pass" params with
               | VUndef => Throw (Error "Bad params, pass is required")
               | _ =>
                   let params := set "strict" (VBool (truthy (get "strict" params))) params in
                   Return (set "logger" (or_else (get "logger" params) VNull) params)
               end
           end
  | _ => Throw (TypeError "validator.isURL: expected a string")
  end.

(** [client(options)]: [new IControlRestClient(params, options)]. *)
Definition new_client (params : obj) (opts : value) : client :=
  {| params := params; options := as_obj (or_else opts (VObj [])) |}.

Definition initial_state : state := {| transactionId := VNull; sent := [] |}.

(** [iControlRest(params).client(options)] *)
Definition session (p opts : value) : completion client :=
  match iControlRest p with
  | Return params => Return (new_client params opts)
  | Throw e => Throw e
  end.

End Factory.

(** ** Path helpers and resource operations *)

(** [s.split(sep)] for a separator of one character: the pieces between
    the separators, at least one. *)
Fixpoint split (sep : ascii) (s : string) : list string :=
  match s with
  | EmptyString => [EmptyString]
  | String ch s' =>
      if Ascii.eqb ch sep then EmptyString :: split sep s'
      else match split sep s' with
           | piece :: pieces => String ch piece :: pieces
           | [] => [String ch EmptyString]
           end
  end.

(** [pieces.join(sep)] *)
Fixpoint join (sep : string) (pieces : list string) : string :=
  match pieces with
  | [] => EmptyString
  | [piece] => piece
  | piece :: rest => piece ++ sep ++ join sep rest
  end.

(** [arr[0]] of an array of strings. *)
Definition first (arr : list string) : value :=
  match arr with x :: _ => VStr x | [] => VUndef end.

Definition SLASH : ascii := "/"%char.

(** [escapeResourcePath(path)]: [path.split('/').join('~')]; a value
    without a [split] method makes the call throw. *)
Definition escapeResourcePath (path : value) : completion value :=
  match path with
  | VStr p => Return (VStr (join "~" (split SLASH p)))
  | _ => Throw (TypeError "path.split is not a function")
  end.

(** [resourcePathToName(path)]: [path.split('/').reverse()[0]]. *)
Definition resourcePathToName (path : value) : completion value :=
  match path with
  | VStr p => Return (first (rev (split SLASH p)))
  | _ => Throw (TypeError "path.split is not a function")
  end.

(** The client with its [_autoExpandCollections] field, which the
    constructor leaves unset. *)
Record instance : Type := {
  core : state;
  autoExpandCollections : value
}.

(** A promise of [ltmCreateMonitor]: that of its dispatch, or one
    rejected with a plain value. *)
Inductive monitor_promise : Type :=
| Dispatched (r : settled IControlRestResponse)
| RejectedWith (reason : value).

Section Resources.

Variable transport : list obj -> obj -> outcome.
Variable c : client.

Definition new_instance : instance :=
  {| core := initial_state; autoExpandCollections := VUndef |}.

(** [autoExpand(b)]: [this._autoExpandCollections = !!b]. *)
Definition autoExpand (b : value) (i : instance) : instance :=
  {| core := core i; autoExpandCollections := VBool (truthy b) |}.

(** [this._autoExpandCollections === true ? ... : ...] *)
Definition expandSubcollections (i : instance) : string :=
  if strict_true (autoExpandCollections i)
  then "expandSubcollections=true"
  else "expandSubcollections=false".

Definition GET (path : string) : descriptor :=
  {| method := VStr "GET"; uri := VStr path;
     data := VUndef; ignoreTransaction := VUndef |}.

Definition POST (path : string) (datas : value) : descriptor :=
  {| method := VStr "POST"; uri := VStr path;
     data := datas; ignoreTransaction := VUndef |}.

Definition PATCH (path : string) (datas : value) : descriptor :=
  {| method := VStr "PATCH"; uri := VStr path;
     data := datas; ignoreTransaction := VUndef |}.

(** [ltmGetPool(name)] *)
Definition ltmGetPool (name : value) (i : instance) :=
  request transport c
    (GET ("/mgmt/tm/ltm/pool/" ++ toString name ++ "?" ++ expandSubcollections i))
    (core i).

(** [ltmGetPoolMembers(name)] *)
Definition ltmGetPoolMembers (name : value) (i : instance) :=
  request transport c
    (GET ("/mgmt/tm/ltm/pool/" ++ toString name ++ "/members?"
          ++ expandSubcollections i))
    (core i).

(** [gtmGetVirtual(name)] *)
Definition gtmGetVirtual (name : value) (i : instance) :=
  request transport c
    (GET ("/mgmt/tm/ltm/virtual/" ++ toString name ++ "?" ++ expandSubcollections i))
    (core i).

(** [ltmGetMonitorsByType(type)] *)
Definition ltmGetMonitorsByType (type : value) (i : instance) :=
  request transport c
    (GET ("/mgmt/tm/ltm/monitor/" ++ toString type ++ "?" ++ expandSubcollections i))
    (core i).

(** [ltmUpdatePool(poolName, datas)] *)
Definition ltmUpdatePool (poolName datas : value) : async IControlRestResponse :=
  request transport c (PATCH ("/mgmt/tm/ltm/pool/" ++ toString poolName) datas).

(** [ltmCreateVirtual(datas)] *)
Definition ltmCreateVirtual (datas : value) : async IControlRestResponse :=
  request transport c (POST "/mgmt/tm/ltm/virtual" datas).

(** [ltmCreateVirtualAddress(datas)] *)
Definition ltmCreateVirtualAddress (datas : value) : async IControlRestResponse :=
  request transport c (POST "/mgmt/tm/ltm/virtual-address" datas).

(** [ltmCreateMonitor(datas)] *)
Definition ltmCreateMonitor (datas : value) (s : state) : state * monitor_promise :=
  match get_prop datas "defaultsFrom" with
  | None =>
      (s, Dispatched (Rejected
            (TypeError "datas.defaultsFrom: datas is undefined or null")))
  | Some defaultsFrom =>
      if truthy defaultsFrom
      then match defaultsFrom with
           | VStr from =>
               let parentMonitor := first (rev (split SLASH from)) in
               let (s', r) :=
                 request transport c
                   (POST ("/mgmt/tm/ltm/monitor/" ++ toString parentMonitor) datas) s in
               (s', Dispatched r)
           | _ =>
               (s, Dispatched (Rejected
                     (TypeError "datas.defaultsFrom.split is not a function")))
           end
      else (s, RejectedWith
                 (VStr "ltmCreateMonitor requires parent monitor (data.defaultsFrom"))
  end.

(** [ltmUpdateMonitor(parentType, name, datas)] *)
Definition ltmUpdateMonitor (parentType name datas : value)
  : async IControlRestResponse :=
  request transport c
    (PATCH ("/mgmt/tm/ltm/monitor/" ++ toString parentType ++ "/" ++ toString name)
           datas).

(** [ltmCreatePolicy(datas)] *)
Definition ltmCreatePolicy (datas : value) : async IControlRestResponse :=
  request transport c (POST "/mgmt/tm/ltm/policy" datas).

(** [ltmPublishPolicy(policyDraftName)] *)
Definition ltmPublishPolicy (policyDraftName : value) : async IControlRestResponse :=
  request transport c
    (POST "/mgmt/tm/ltm/policy"
          (VObj [("command", VStr "publish"); ("name", policyDraftName)])).

(** [ltmCreatePolicyRule(policyName, datas)] *)
Definition ltmCreatePolicyRule (policyName datas : value)
  : async IControlRestResponse :=
  request transport c
    (POST ("/mgmt/tm/ltm/policy/" ++ toString policyName ++ "/rules") datas).

(** [gtmCreateWideIp(wideIpType, datas)] *)
Definition gtmCreateWideIp (wideIpType datas : value) : async IControlRestResponse :=
  request transport c (POST ("/mgmt/tm/gtm/wideip/" ++ toString wideIpType) datas).

(** [gtmCreatePool(poolType, datas)] *)
Definition gtmCreatePool (poolType datas : value) : async IControlRestResponse :=
  request transport c (POST ("/mgmt/tm/gtm/pool/" ++ toString poolType) datas).

(** The factory's [transaction()]: [this.client().beginTransaction()]
    on a client made from the checked [params], without options. *)
Definition transaction (params : obj) : state * settled value :=
  beginTransaction transport (new_client params VUndef) initial_state.

End Resources.

(** [s] with every "/" turned into "~". *)
Fixpoint tilde (s : string) : string :=
  match s with
  | EmptyString => EmptyString
  | String ch s' =>
      String (if Ascii.eqb ch SLASH then "~"%char else ch) (tilde s')
  end.

(** [s] has no "/". *)
Fixpoint slashless (s : string) : bool :=
  match s with
  | EmptyString => true
  | String ch s' => negb (Ascii.eqb ch SLASH) && slashless s'
  end.

(** ** Sample data *)

Module Sample.

Definition bigip_params : obj :=
  [ ("url", VStr "https://bigip.example.com");
    ("user", VStr "admin");
    ("pass", VStr "secret");
    ("strict", VBool false);
    ("logger", VNull) ].

Definition bigip : client := {| params := bigip_params; options := [] |}.

(** A client built with [{headers: {}}] as request options. *)
Definition bare_headers : client :=
  {| params := bigip_params; options := [("headers", VObj [])] |}.

Definition ok : response := {| statusCode := 200 |}.

(** A server that answers every call with a started transaction. *)
Definition started (_ : list obj) (_ : obj) : outcome :=
  Response ok (VObj [("transId", VNum 14567789009876543);
                     ("state", VStr "STARTED")]).

Definition get_pool : descriptor :=
  {| method := VStr "GET";
     uri := VStr "/mgmt/tm/ltm/pool/p1";
     data := VUndef;
     ignoreTransaction := VUndef |}.

Definition get_pool_bypass : descriptor :=
  {| method := VStr "GET";
     uri := VStr "/mgmt/tm/ltm/pool/p1";
     data := VUndef;
     ignoreTransaction := VBool true |}.

(** A stand-in for [validator.isURL]. *)
Definition https_only (u : string) : bool := prefix "https://" u.

Definition blank_credentials : value :=
  VObj [ ("url", VStr "https://bigip.example.com");
         ("user", VStr "");
         ("pass", VStr "") ].

(** A stand-in for [url.parse(link, true)] on absolute links without
    a fragment: what follows the host, cut at the first "?". *)
Definition split_url (link : string) : value * value :=
  match index 0 "://" link with
  | None => (VNull, VStr "")
  | Some i =>
      let rest := substring (i + 3) (String.length link) link in
      match index 0 "/" rest with
      | None => (VStr "/", VStr "")
      | Some j =>
          let tail := substring j (String.length rest) rest in
          match index 0 "?" tail with
          | None => (VStr tail, VStr "")
          | Some q =>
              (VStr (substring 0 q tail),
               VStr (substring q (String.length tail) tail))
          end
      end
  end.

(** A virtual server as the API lists it: the pool by path and by
    reference. *)
Definition virtual_server : obj :=
  [ ("name", VStr "vs1");
    ("pool", VStr "/Common/p1");
    ("poolReference",
     VObj [("link", VStr "https://host/mgmt/tm/ltm/pool/p1?ver=1")]) ].

Definition pool_body : value :=
  VObj [("name", VStr "p1"); ("kind", VStr "tm:ltm:pool:poolstate")].

Definition serves_pool (_ : list obj) (_ : obj) : outcome :=
  Response ok pool_body.

Definition in_transaction (tid : value) : state :=
  {| transactionId := tid; sent := [] |}.

End Sample.

(** * Properties *)

(** ** Objects *)

Section ObjectFacts.

Lemma lookup_set_same k v o : lookup k (set k v o) = Some v.
Proof.
  induction o as [|[k' v'] o IH]; simpl.
  - now rewrite String.eqb_refl.
  - destruct (k =? k')%string eqn:E; simpl.
    + now rewrite String.eqb_refl.
    + now rewrite E.
Qed.

Lemma lookup_set_other k k' v o :
  k <> k' -> lookup k (set k' v o) = lookup k o.
Proof.
  intros N. apply String.eqb_neq in N.
  induction o as [|[k2 v2] o IH]; simpl.
  - now rewrite N.
  - destruct (k' =? k2)%string eqn:E; simpl.
    + apply String.eqb_eq in E. subst k2. now rewrite N.
    + now rewrite IH.
Qed.

Lemma get_set_same k v o : get k (set k v o) = v.
Proof. unfold get. now rewrite lookup_set_same. Qed.

Lemma get_set_other k k' v o : k <> k' -> get k (set k' v o) = get k o.
Proof. intros N. unfold get. now rewrite lookup_set_other. Qed.

Lemma keys_set_in k v o : In k (keys o) -> keys (set k v o) = keys o.
Proof.
  induction o as [|[k' v'] o IH]; simpl; [easy|].
  intros [E | I].
  - subst k'. now rewrite String.eqb_refl.
  - destruct (k =? k')%string eqn:E; simpl.
    + apply String.eqb_eq in E. now subst.
    + now rewrite IH.
Qed.

(** A key the source object lacks is read from the target. *)
Lemma lookup_assign_miss k source : forall target,
  has k source = false -> lookup k (assign target source) = lookup k target.
Proof.
  unfold assign, has.
  induction source as [|[k' v'] source IH]; intros target H; simpl in *.
  - reflexivity.
  - destruct (k =? k')%string eqn:E; [discriminate|].
    rewrite IH by exact H. apply lookup_set_other.
    now apply String.eqb_neq.
Qed.

Lemma get_assign_miss k source target :
  has k source = false -> get k (assign target source) = get k target.
Proof. intros H. unfold get. now rewrite lookup_assign_miss. Qed.

End ObjectFacts.

(** ** The dispatcher *)

Section RequestFacts.

Variable transport : list obj -> obj -> outcome.
Variable c : client.

Lemma request_sent d s :
  fst (request transport c d s)
  = {| transactionId := transactionId s;
       sent := sent s ++ [request_options c d s] |}.
Proof. reflexivity. Qed.

Lemma request_settles d s :
  snd (request transport c d s)
  = classify (transport (sent s) (request_options c d s)).
Proof. reflexivity. Qed.

(** Without a [headers] entry in the overlay, the transport gets the
    [headers] object that [request] filled. *)
Lemma request_options_headers d s :
  has "headers" (options c) = false ->
  get "headers" (request_options c d s) = VObj (request_headers d s).
Proof.
  intros H. unfold request_options. rewrite get_assign_miss by exact H.
  unfold computed_options. destruct (truthy (data d)); reflexivity.
Qed.

Lemma request_options_method d s :
  has "method" (options c) = false ->
  get "method" (request_options c d s) = method d.
Proof.
  intros H. unfold request_options. rewrite get_assign_miss by exact H.
  unfold computed_options. destruct (truthy (data d)); reflexivity.
Qed.

Lemma request_options_url d s :
  has "url" (options c) = false ->
  get "url" (request_options c d s)
  = VStr (toString (get "url" (params c)) ++ toString (uri d)).
Proof.
  intros H. unfold request_options. rewrite get_assign_miss by exact H.
  unfold computed_options. destruct (truthy (data d)); reflexivity.
Qed.

Lemma request_options_body d s :
  has "body" (options c) = false ->
  get "body" (request_options c d s)
  = if truthy (data d) then data d else VUndef.
Proof.
  intros H. unfold request_options. rewrite get_assign_miss by exact H.
  unfold computed_options. destruct (truthy (data d)); reflexivity.
Qed.

Lemma coordination_header_injected d s :
  has "headers" (options c) = false ->
  coordination_header (request_options c d s)
  = if truthy (transactionId s) && negb (strict_true (ignoreTransaction d))
    then Some (transactionId s) else None.
Proof.
  intros H. unfold coordination_header.
  rewrite request_options_headers by exact H.
  unfold request_headers.
  destruct (truthy (transactionId s) && negb (strict_true (ignoreTransaction d)));
    reflexivity.
Qed.

End RequestFacts.

(** ** Coordination header *)

(** C1, as amended.  For a client whose options overlay has no
    [headers] entry, the options passed to the transport carry the
    coordination header with the value of [transactionId] when that
    value is truthy and [ignoreTransaction] is not [true]; they carry no
    coordination header when [ignoreTransaction] is [true], and none
    when [transactionId] is [null]. *)
Theorem request_coordination_header
    (transport : list obj -> obj -> outcome) (c : client)
    (d : descriptor) (s : state) :
  has "headers" (options c) = false ->
  exists o,
    sent (fst (request transport c d s)) = (sent s ++ [o])%list /\
    (truthy (transactionId s) = true ->
     strict_true (ignoreTransaction d) = false ->
     coordination_header o = Some (transactionId s)) /\
    (strict_true (ignoreTransaction d) = true ->
     coordination_header o = None) /\
    (transactionId s = VNull -> coordination_header o = None).
Proof.
  intros H. exists (request_options c d s).
  split; [reflexivity|].
  rewrite coordination_header_injected by exact H.
  repeat split.
  - intros T I. now rewrite T, I.
  - intros I. rewrite I. now rewrite andb_false_r.
  - intros N. now rewrite N.
Qed.

Lemma request_coordination_header_witness :
  exists o,
    sent (fst (request Sample.started Sample.bigip Sample.get_pool
                 (Sample.in_transaction (VNum 42)))) = [o] /\
    coordination_header o = Some (VNum 42).
Proof.
  destruct (request_coordination_header Sample.started Sample.bigip
              Sample.get_pool (Sample.in_transaction (VNum 42)) eq_refl)
    as [o [S [A _]]].
  exists o. split; [exact S|]. apply A; reflexivity.
Defined.

(** C1 as worded fails: after [setTransactionId("")] the client is in
    transaction mode, [ignoreTransaction] is unset, and the request has
    no coordination header at all. *)
Lemma empty_id_no_coordination_header :
  let s := setTransactionId (VStr "") initial_state in
  isInTransactionMode s = true /\
  strict_true (ignoreTransaction Sample.get_pool) = false /\
  coordination_header (request_options Sample.bigip Sample.get_pool s)
    <> Some (transactionId s) /\
  coordination_header (request_options Sample.bigip Sample.get_pool s) = None.
Proof. cbv zeta. repeat split. discriminate. Qed.

(** C10.  When [transactionId] is falsy but not [null],
    [isInTransactionMode()] is true, [getTransactionId()] returns the id,
    [beginTransaction()] is refused without a request being sent, and
    [request] leaves its [headers] object empty whatever the descriptor:
    the options it passes on have no coordination header, unless the
    client's overlay brings a [headers] entry of its own. *)
Theorem falsy_id_in_transaction_without_header
    (transport : list obj -> obj -> outcome) (c : client)
    (d : descriptor) (s : state) :
  transactionId s <> VNull ->
  truthy (transactionId s) = false ->
  isInTransactionMode s = true /\
  getTransactionId s = Return (transactionId s) /\
  beginTransaction transport c s
  = (s, Rejected (Error "Bad operation, client is already in transaction mode")) /\
  sent (fst (request transport c d s)) = (sent s ++ [request_options c d s])%list /\
  request_headers d s = [] /\
  (has "headers" (options c) = false ->
   coordination_header (request_options c d s) = None).
Proof.
  intros N F.
  assert (M : isInTransactionMode s = true).
  { unfold isInTransactionMode. destruct (transactionId s); try reflexivity.
    now elim N. }
  repeat split.
  - exact M.
  - unfold getTransactionId. now rewrite M.
  - unfold beginTransaction. now rewrite M.
  - unfold request_headers. now rewrite F.
  - intros H. rewrite coordination_header_injected by exact H. now rewrite F.
Qed.

Lemma falsy_id_in_transaction_without_header_witness :
  let s := setTransactionId (VStr "") initial_state in
  isInTransactionMode s = true /\
  getTransactionId s = Return (VStr "") /\
  coordination_header (request_options Sample.bigip Sample.get_pool s) = None.
Proof.
  cbv zeta.
  destruct (falsy_id_in_transaction_without_header Sample.started Sample.bigip
              Sample.get_pool (setTransactionId (VStr "") initial_state))
    as [M [G [_ [_ [_ A]]]]]; try reflexivity; try discriminate.
  split; [exact M | split; [exact G | apply A; reflexivity]].
Defined.

(** A begin answered with 200 and a body without [transId] leaves
    [undefined] in [transactionId]. *)
Lemma begin_without_transId (c : client) :
  let answer (_ : list obj) (_ : obj) := Response Sample.ok (VObj []) in
  transactionId (fst (beginTransaction answer c initial_state)) = VUndef /\
  snd (beginTransaction answer c initial_state) = Resolved VClient.
Proof. split; reflexivity. Qed.

(** ** Transaction lifecycle *)

(** C3.  In transaction mode, [commitTransaction()] is the dispatch of
    [PATCH /mgmt/tm/transaction/<id>] with body [{state: "VALIDATING"}],
    where [<id>] is the id held when the call started, and that dispatch
    is made from a state whose [transactionId] is already [null].  One
    options object goes to the transport; [request] puts no coordination
    header in it, so it has none unless the client's overlay brings a
    [headers] entry of its own. *)
Theorem commit_clears_before_dispatch
    (transport : list obj -> obj -> outcome) (c : client) (s : state) :
  isInTransactionMode s = true ->
  let captured := toString (transactionId s) in
  let patch := {| method := VStr "PATCH";
                  uri := VStr ("/mgmt/tm/transaction/" ++ captured);
                  data := VObj [("state", VStr "VALIDATING")];
                  ignoreTransaction := VUndef |} in
  let cleared := {| transactionId := VNull; sent := sent s |} in
  commitTransaction transport c s = request transport c patch cleared /\
  isInTransactionMode cleared = false /\
  fst (commitTransaction transport c s)
  = {| transactionId := VNull;
       sent := (sent s ++ [request_options c patch cleared])%list |} /\
  request_headers patch cleared = [] /\
  (has "headers" (options c) = false ->
   coordination_header (request_options c patch cleared) = None).
Proof.
  intros M captured patch cleared.
  assert (E : commitTransaction transport c s = request transport c patch cleared).
  { unfold commitTransaction. now rewrite M. }
  repeat split.
  - exact E.
  - now rewrite E.
  - intros H. now rewrite coordination_header_injected by exact H.
Qed.

Lemma commit_clears_before_dispatch_witness :
  fst (commitTransaction Sample.started Sample.bigip
         (Sample.in_transaction (VNum 14567789009876543)))
  = {| transactionId := VNull;
       sent := [ [ ("method", VStr "PATCH");
                   ("url", VStr "https://bigip.example.com/mgmt/tm/transaction/14567789009876543");
                   ("auth", VObj [("user", VStr "admin"); ("pass", VStr "secret")]);
                   ("headers", VObj []);
                   ("timeout", VNum 2000);
                   ("json", VBool true);
                   ("strictSSL", VBool false);
                   ("body", VObj [("state", VStr "VALIDATING")]) ] ] |}.
Proof.
  destruct (commit_clears_before_dispatch Sample.started Sample.bigip
              (Sample.in_transaction (VNum 14567789009876543))
              eq_refl) as [_ [_ [S _]]].
  rewrite S. reflexivity.
Defined.

(** C5, as amended.  In transaction mode, [beginTransaction()] is
    rejected with an [Error] whose message is
    "Bad operation, client is already in transaction mode"; nothing is
    sent and [transactionId] keeps its value. *)
Theorem begin_twice_rejected
    (transport : list obj -> obj -> outcome) (c : client) (s : state) :
  isInTransactionMode s = true ->
  beginTransaction transport c s
  = (s, Rejected (Error "Bad operation, client is already in transaction mode")).
Proof. intros M. unfold beginTransaction. now rewrite M. Qed.

(** A first begin that the server answers, then a second one. *)
Lemma begin_twice_rejected_witness :
  let s1 := fst (beginTransaction Sample.started Sample.bigip initial_state) in
  transactionId s1 = VNum 14567789009876543 /\
  beginTransaction Sample.started Sample.bigip s1
  = (s1, Rejected (Error "Bad operation, client is already in transaction mode")).
Proof.
  cbv zeta. split; [reflexivity|].
  apply (begin_twice_rejected Sample.started Sample.bigip). reflexivity.
Defined.

(** C5 as worded fails on the message: it is not the bare phrase. *)
Lemma begin_twice_message_differs :
  let s := Sample.in_transaction (VNum 14567789009876543) in
  isInTransactionMode s = true /\
  snd (beginTransaction Sample.started Sample.bigip s)
  <> Rejected (Error "already in transaction mode").
Proof. cbv zeta. split; [reflexivity|]. discriminate. Qed.

(** C6.  Outside transaction mode, [commitTransaction()] fails on its
    first statement, whatever the transport would answer: the call is
    rejected with the "not in transaction mode" error, nothing is sent,
    and the state is the one it started from. *)
Theorem commit_inactive_rejected
    (transport : list obj -> obj -> outcome) (c : client) (s : state) :
  isInTransactionMode s = false ->
  commitTransaction transport c s
  = (s, Rejected (Error "Bad operation, client is not in transaction mode")) /\
  endsWith "Bad operation, client is not in transaction mode"
           "not in transaction mode" = true.
Proof.
  intros M. split; [|reflexivity].
  unfold commitTransaction. now rewrite M.
Qed.

Lemma commit_inactive_rejected_witness :
  commitTransaction Sample.started Sample.bigip initial_state
  = (initial_state,
     Rejected (Error "Bad operation, client is not in transaction mode")).
Proof.
  apply (commit_inactive_rejected Sample.started Sample.bigip initial_state).
  reflexivity.
Defined.

(** Begin, create a pool, commit: the pool request carries the
    coordination header, the commit request does not. *)
Lemma begin_create_commit :
  let run :=
    (_ <- beginTransaction Sample.started Sample.bigip ;;
     _ <- ltmCreatePool Sample.started Sample.bigip (VObj [("name", VStr "p1")]) ;;
     commitTransaction Sample.started Sample.bigip) initial_state in
  map coordination_header (sent (fst run))
  = [None; Some (VNum 14567789009876543); None] /\
  transactionId (fst run) = VNull.
Proof. split; reflexivity. Qed.

(** ** Outcome classification *)

Section Classification.

Lemma classify_transport_failure m :
  exists e,
    classify (NoResponse m) = Rejected (RestError e) /\
    error_message e
    = match m with VUndef => VStr "" | _ => VStr (toString m) end /\
    get "httpStatus" e = VUndef.
Proof.
  eexists. split; [reflexivity|]. destruct m; split; reflexivity.
Qed.

Lemma classify_api_failure r o :
  statusCode r <> 0 -> statusCode r <> 200 ->
  exists e,
    classify (Response r (VObj o)) = Rejected (RestError e) /\
    error_message e
    = match get "message" o with
      | VUndef => VStr ""
      | m => VStr (toString m)
      end /\
    get "httpStatus" e = VNum (statusCode r).
Proof.
  intros Z0 Z200. apply Z.eqb_neq in Z0, Z200.
  unfold classify. rewrite Z0, Z200. simpl.
  eexists. split; [reflexivity|].
  unfold IControlRestError. simpl.
  destruct (get "message" o); split; reflexivity.
Qed.


Lemma classify_not_found :
  exists e,
    classify (Response {| statusCode := 404 |}
                       (VObj [("message", VStr "not found")]))
    = Rejected (RestError e) /\
    error_message e = VStr "not found" /\
    get "httpStatus" e = VNum 404.
Proof. eexists. repeat split. Qed.

Lemma IControlRestError_own_keys p k :
  k <> "message"%string -> k <> "httpStatus"%string ->
  lookup k (IControlRestError p) = None.
Proof.
  intros Nm Nh. apply String.eqb_neq in Nm, Nh.
  unfold IControlRestError.
  destruct (get "message" p); simpl; now rewrite ?Nm, ?Nh.
Qed.

End Classification.

(** C2 fails on a response that has a status other than 200 and no
    body: with 204 No Content the callback raises a TypeError while
    reading [obj.message], so the call neither fails with an
    [IControlRestError] nor succeeds. *)
Theorem dispatch_no_content_uncaught (c : client) (d : descriptor) (s : state) :
  let no_content (_ : list obj) (_ : obj) :=
    Response {| statusCode := 204 |} VUndef in
  snd (request no_content c d s)
  = Uncaught (TypeError "obj.message: obj is undefined or null").
Proof. reflexivity. Qed.

(** C8 fails when there is no parsed body: for every status other than
    200 the error object is never built, because reading [message] off
    an [undefined] or [null] body raises first. *)
Theorem api_failure_needs_body (r : response) :
  statusCode r <> 0 -> statusCode r <> 200 ->
  classify (Response r VUndef)
  = Uncaught (TypeError "obj.message: obj is undefined or null") /\
  classify (Response r VNull)
  = Uncaught (TypeError "obj.message: obj is undefined or null").
Proof.
  intros Z0 Z200. apply Z.eqb_neq in Z0, Z200.
  unfold classify. rewrite Z0, Z200. split; reflexivity.
Qed.

Lemma api_failure_needs_body_witness :
  classify (Response {| statusCode := 500 |} VUndef)
  = Uncaught (TypeError "obj.message: obj is undefined or null").
Proof.
  apply (api_failure_needs_body {| statusCode := 500 |}); discriminate.
Defined.

(** C9 fails: no [IControlRestError] that a dispatch rejects with has a
    [client] property; the constructor takes [client] out of its
    parameters and drops it. *)
Theorem rest_error_has_no_client (o : outcome) (e : obj) :
  classify o = Rejected (RestError e) ->
  lookup "client" e = None /\ get "client" e = VUndef.
Proof.
  intros H.
  assert (L : lookup "client" e = None).
  { destruct o as [m | r body]; simpl in H.
    - injection H as <-. now apply IControlRestError_own_keys.
    - destruct (negb (statusCode r =? 0) && negb (statusCode r =? 200));
        [|discriminate].
      destruct (get_prop body "message"); [|discriminate].
      injection H as <-. now apply IControlRestError_own_keys. }
  split; [exact L|]. unfold get. now rewrite L.
Qed.

Lemma rest_error_has_no_client_witness :
  let e := IControlRestError [("message", VStr "ETIMEDOUT"); ("client", VClient)] in
  classify (NoResponse (VStr "ETIMEDOUT")) = Rejected (RestError e) /\
  get "client" e = VUndef.
Proof.
  cbv zeta. split; [reflexivity|].
  apply (rest_error_has_no_client (NoResponse (VStr "ETIMEDOUT"))).
  reflexivity.
Defined.

(** ** The factory *)

Section FactoryFacts.

Variable isURL : string -> bool.

Lemma iControlRest_returns p ps :
  iControlRest isURL p = Return ps ->
  let given := as_obj (or_else p (VObj [])) in
  ps = set "logger"
         (or_else (get "logger"
                     (set "strict" (VBool (truthy (get "strict" given))) given))
                  VNull)
         (set "strict" (VBool (truthy (get "strict" given))) given) /\
  (exists u, get "url" given = VStr u /\ isURL u = true /\ endsWith u "/" = false) /\
  get "user" given <> VUndef /\
  get "pass" given <> VUndef.
Proof.
  intros H given. unfold iControlRest in H. fold given in H.
  destruct (get "url" given) as [| | | |u| |] eqn:U; try discriminate.
  destruct (isURL u) eqn:V; simpl in H; [|discriminate].
  destruct (endsWith u "/") eqn:T; [discriminate|].
  destruct (get "user" given) eqn:Us; try discriminate;
    destruct (get "pass" given) eqn:Pa; try discriminate;
    injection H as <-;
    (split; [reflexivity|]);
    (split; [exists u; auto|]); split; discriminate.
Qed.

End FactoryFacts.

(** C7, as amended.  The [params] of every client the factory hands out
    hold a string [url] that [validator.isURL] accepts and that does not
    end in "/", and a [user] and a [pass] other than [undefined].
    Parameters whose [url] is missing, not a string, rejected by the
    validator or ending in "/", or whose [user] or [pass] is
    [undefined], make the factory throw; the factory never reaches the
    transport. *)
Theorem factory_validates (isURL : string -> bool) (p opts : value) :
  (forall cl, session isURL p opts = Return cl ->
     (exists u, get "url" (params cl) = VStr u /\ isURL u = true /\
                endsWith u "/" = false) /\
     get "user" (params cl) <> VUndef /\
     get "pass" (params cl) <> VUndef) /\
  (let given := as_obj (or_else p (VObj [])) in
   (forall u, get "url" given = VStr u -> isURL u = false \/ endsWith u "/" = true) \/
   get "user" given = VUndef \/ get "pass" given = VUndef ->
   exists e, session isURL p opts = Throw e).
Proof.
  split.
  - intros cl H. unfold session in H.
    destruct (iControlRest isURL p) as [ps|e] eqn:E; [|discriminate].
    injection H as <-. simpl.
    destruct (iControlRest_returns isURL p ps E) as [-> [[u [U [V T]]] [Us Pa]]].
    rewrite !get_set_other by discriminate.
    split; [exists u; auto|]. split; assumption.
  - intros given H. unfold session.
    destruct (iControlRest isURL p) as [ps|e] eqn:E; [|now exists e].
    destruct (iControlRest_returns isURL p ps E) as [_ [[u [U [V T]]] [Us Pa]]].
    fold given in U, Us, Pa.
    destruct H as [H | [H | H]].
    + destruct (H u U) as [X | X]; congruence.
    + contradiction.
    + contradiction.
Qed.

Lemma factory_validates_witness :
  (exists cl,
     session Sample.https_only (VObj Sample.bigip_params) VUndef = Return cl /\
     get "url" (params cl) = VStr "https://bigip.example.com") /\
  (exists e,
     session Sample.https_only
       (VObj [("url", VStr "https://bigip.example.com/");
              ("user", VStr "admin"); ("pass", VStr "secret")]) VUndef
     = Throw e).
Proof.
  split.
  - eexists. split; reflexivity.
  - apply (factory_validates Sample.https_only). cbv zeta.
    left. intros u U. injection U as <-. right. reflexivity.
Defined.

(** C7 as worded fails on empty credentials: the factory accepts
    [user: ""] and [pass: ""]. *)
Lemma empty_credentials_accepted :
  exists cl,
    session Sample.https_only Sample.blank_credentials VUndef = Return cl /\
    get "user" (params cl) = VStr "" /\
    get "pass" (params cl) = VStr "".
Proof. eexists. repeat split. Qed.

(** ** Reference expansion *)

Section StringFacts.

Lemma substring_whole s : substring 0 (String.length s) s = s.
Proof. induction s as [|a s IH]; simpl; [reflexivity | now rewrite IH]. Qed.

Lemma substring_cut s : forall n,
  (n <= String.length s)%nat ->
  (substring 0 n s ++ substring n (String.length s - n) s)%string = s.
Proof.
  induction s as [|a s IH]; intros [|n] L; simpl in *.
  - reflexivity.
  - lia.
  - now rewrite substring_whole.
  - f_equal. apply IH. lia.
Qed.

Lemma endsWith_dropSuffix k suf :
  endsWith k suf = true -> k = (dropSuffix k suf ++ suf)%string.
Proof.
  unfold endsWith, dropSuffix. intros H.
  apply andb_true_iff in H. destruct H as [L E].
  apply Nat.leb_le in L. apply String.eqb_eq in E.
  set (n := String.length k) in *. set (m := String.length suf) in *.
  transitivity (substring 0 (n - m) k ++ substring (n - m) (n - (n - m)) k)%string.
  - symmetry. apply substring_cut. lia.
  - f_equal. replace (n - (n - m))%nat with m by lia. exact E.
Qed.

Lemma dropSuffix_inj k1 k2 suf :
  endsWith k1 suf = true -> endsWith k2 suf = true ->
  dropSuffix k1 suf = dropSuffix k2 suf -> k1 = k2.
Proof.
  intros E1 E2 D.
  rewrite (endsWith_dropSuffix k1 suf E1), (endsWith_dropSuffix k2 suf E2).
  now rewrite D.
Qed.

End StringFacts.

Section ReferenceFacts.

Lemma references_in o ks k :
  In k (references o ks) -> In k ks /\ endsWith k REFERENCE = true.
Proof.
  unfold references. intros H. apply filter_In in H. destruct H as [I E].
  apply andb_true_iff in E. destruct E as [E _]. now split.
Qed.

(** Storing under the stripped name of a reference key does not change
    which of the keys [ks] are references. *)
Lemma references_set o ks k v :
  unchained [k] -> endsWith k REFERENCE = true ->
  references (set (dropSuffix k REFERENCE) v o) ks = references o ks.
Proof.
  intros U E. unfold references. apply filter_ext_in. intros k2 _.
  destruct (endsWith k2 REFERENCE) eqn:E2; [|reflexivity]. simpl.
  rewrite get_set_other; [reflexivity|].
  intros ->. rewrite (U k) in E2; [discriminate | now left | exact E].
Qed.

End ReferenceFacts.

Section ExpandFacts.

Variable transport : list obj -> obj -> outcome.
Variable c : client.
Variable urlparse : string -> value * value.

Lemma classify_resolved oc e :
  classify oc = Resolved e -> exists r, oc = Response r (env_data e).
Proof.
  destruct oc as [m | r body]; simpl; [discriminate|].
  destruct (negb (statusCode r =? 0) && negb (statusCode r =? 200)).
  - destruct (get_prop body "message"); discriminate.
  - intros H. injection H as <-. now exists r.
Qed.

Lemma fetch_is_get link :
  method (fetch urlparse link) = VStr "GET" /\
  uri (fetch urlparse link)
  = VStr (toString (fst (urlparse link)) ++ toString (snd (urlparse link))) /\
  data (fetch urlparse link) = VUndef /\
  ignoreTransaction (fetch urlparse link) = VBool true.
Proof. unfold fetch. destruct (urlparse link). repeat split. Qed.

Lemma fetch_without_header link s :
  has "headers" (options c) = false ->
  coordination_header (request_options c (fetch urlparse link) s) = None.
Proof.
  intros H. rewrite coordination_header_injected by exact H.
  destruct (fetch_is_get link) as [_ [_ [_ ->]]]. simpl.
  now rewrite andb_false_r.
Qed.

(** A turn of the loop that completes either skips the key or fetches
    its link and stores the body. *)
Lemma expand_key_own_resolved k o s p' s' :
  expand_key transport c urlparse k (own o) s = (p', s', Resolved tt) ->
  (endsWith k REFERENCE && is_reference (get k o) = false /\
   p' = own o /\ s' = s) \/
  (endsWith k REFERENCE && is_reference (get k o) = true /\
   exists link r body,
     reference_link (get k o) = Some (VStr link) /\
     transport (sent s) (request_options c (fetch urlparse link) s)
     = Response r body /\
     p' = own (set (dropSuffix k REFERENCE) body o) /\
     s' = {| transactionId := transactionId s;
             sent := (sent s ++ [request_options c (fetch urlparse link) s])%list |}).
Proof.
  unfold expand_key, own, is_reference. simpl.
  destruct (endsWith k REFERENCE); simpl.
  - destruct (reference_link (get k o)) as [l|] eqn:L.
    + destruct l as [| | | |link| |]; try discriminate.
      unfold request.
      destruct (classify (transport (sent s)
                  (request_options c (fetch urlparse link) s))) as [e|e|e] eqn:C;
        try discriminate.
      intros H. injection H as <- <-. right. split; [reflexivity|].
      destruct (classify_resolved _ _ C) as [r R].
      exists link, r, (env_data e). auto.
    + intros H. injection H as <- <-. left. auto.
  - intros H. injection H as <- <-. left. auto.
Qed.

Lemma expand_loop_own : forall ks o s p' s',
  NoDup ks -> unchained ks ->
  expand_loop transport c urlparse ks (own o) s = (p', s', Resolved tt) ->
  exists o' reqs,
    p' = own o' /\
    s' = {| transactionId := transactionId s; sent := (sent s ++ reqs)%list |} /\
    length reqs = length (references o ks) /\
    (forall k, (forall k', In k' (references o ks) -> dropSuffix k' REFERENCE <> k) ->
               lookup k o' = lookup k o) /\
    (forall i k, nth_error (references o ks) i = Some k ->
       exists link r body,
         reference_link (get k o) = Some (VStr link) /\
         nth_error reqs i = Some (request_options c (fetch urlparse link) s) /\
         transport (sent s ++ firstn i reqs)%list
                   (request_options c (fetch urlparse link) s) = Response r body /\
         get (dropSuffix k REFERENCE) o' = body).
Proof.
  induction ks as [|k ks IH]; intros o s p' s' ND UC H.
  - simpl in H. injection H as <- <-. exists o, []. simpl.
    rewrite app_nil_r. destruct s.
    repeat split; auto. intros [|i] k E; discriminate.
  - simpl in H.
    destruct (expand_key transport c urlparse k (own o) s)
      as [[p1 s1] [[]|e|e]] eqn:K; try discriminate.
    inversion ND as [|? ? NI ND']. subst.
    assert (UC' : unchained ks) by (intros k2 I; apply UC; now right).
    apply expand_key_own_resolved in K.
    destruct K as [[M [-> ->]] | [M [link [r [body [L [T [-> ->]]]]]]]].
    + destruct (IH o s p' s' ND' UC' H) as [o' [reqs R]].
      exists o', reqs. unfold references in *. simpl. now rewrite M.
    + assert (E : endsWith k REFERENCE = true)
        by (apply andb_true_iff in M; tauto).
      assert (U1 : unchained [k]).
      { intros k2 [<-|[]]. apply UC. now left. }
      destruct (IH _ _ p' s' ND' UC' H) as [o' [reqs [-> [-> [Len [Keep Each]]]]]].
      rewrite references_set in Len, Keep, Each by assumption.
      exists o', (request_options c (fetch urlparse link) s :: reqs).
      assert (Refs : references o (k :: ks) = k :: references o ks).
      { unfold references in *. simpl. now rewrite M. }
      rewrite Refs. simpl.
      split; [reflexivity|].
      split; [now rewrite <- app_assoc|].
      split; [now rewrite Len|].
      split.
      * intros k0 N. rewrite Keep.
        { apply lookup_set_other. intros ->. apply (N k); [now left | reflexivity]. }
        intros k' I. apply N. now right.
      * intros [|i] k0 Nth; simpl in Nth.
        { injection Nth as <-. exists link, r, body.
          split; [exact L|]. split; [reflexivity|].
          split; [simpl; now rewrite app_nil_r|].
          unfold get. rewrite Keep.
          - now rewrite lookup_set_same.
          - intros k' I D. apply references_in in I. destruct I as [I E'].
            apply NI. now rewrite <- (dropSuffix_inj _ _ _ E' E D). }
        { destruct (Each i k0 Nth) as [link2 [r2 [body2 [L2 [N2 [T2 G2]]]]]].
          exists link2, r2, body2.
          assert (I : In k0 (references o ks)) by (eapply nth_error_In; eauto).
          apply references_in in I. destruct I as [I E0].
          split.
          - rewrite get_set_other in L2; [exact L2|].
            intros ->. rewrite (UC k) in E0; [discriminate | now left | exact E].
          - split; [exact N2|]. split; [|exact G2].
            simpl in T2. rewrite <- app_assoc in T2. exact T2. }
Qed.


End ExpandFacts.

(** C4, as amended.  Let [expand] run on the envelope's own payload [o],
    none of whose field names ends in "ReferenceReference", and let the
    call resolve.  Then the fields processed are exactly those whose
    name ends in "Reference" and whose value is truthy with a [link]
    other than [undefined], once each and in enumeration order: the
    link is a string, the request made for it is the dispatch of
    [fetch], a GET with [ignoreTransaction: true] on the link's pathname
    followed by its search, and the body fetched is stored under the
    name without the suffix.  Every field whose name ends in "Reference"
    keeps its value, and so does every field whose name is not the
    stripped name of a processed field; a field that already has such a
    stripped name is overwritten.  With no [headers] entry in the
    overlay none of the requests has a coordination header. *)
Theorem expand_own_payload
    (transport : list obj -> obj -> outcome) (c : client)
    (urlparse : string -> value * value)
    (o : obj) (s : state) (p' : payloads) (s' : state) :
  NoDup (keys o) ->
  unchained (keys o) ->
  expand transport c urlparse (own o) s = (p', s', Resolved tt) ->
  let refs := references o (keys o) in
  exists o' reqs,
    p' = own o' /\
    s' = {| transactionId := transactionId s; sent := (sent s ++ reqs)%list |} /\
    length reqs = length refs /\
    (forall i k, nth_error refs i = Some k ->
       exists link r body,
         reference_link (get k o) = Some (VStr link) /\
         nth_error reqs i = Some (request_options c (fetch urlparse link) s) /\
         transport (sent s ++ firstn i reqs)%list
                   (request_options c (fetch urlparse link) s) = Response r body /\
         get (dropSuffix k REFERENCE) o' = body) /\
    (forall k, endsWith k REFERENCE = true -> lookup k o' = lookup k o) /\
    (forall k, (forall k', In k' refs -> dropSuffix k' REFERENCE <> k) ->
               lookup k o' = lookup k o) /\
    (has "headers" (options c) = false ->
     forall q, In q reqs -> coordination_header q = None).
Proof.
  intros ND UC H refs. unfold expand in H. simpl in H.
  destruct (expand_loop_own transport c urlparse (keys o) o s p' s' ND UC H)
    as [o' [reqs [P [S [Len [Keep Each]]]]]].
  exists o', reqs. fold refs in Len, Keep, Each.
  repeat (split; [assumption|]).
  split; [|split; [exact Keep|]].
  - intros k E. apply Keep. intros k' I D.
    apply references_in in I. destruct I as [I E'].
    rewrite <- D, (UC k' I E') in E. discriminate.
  - intros Hd q I. apply In_nth_error in I. destruct I as [i N].
    assert (B : (i < length refs)%nat).
    { rewrite <- Len. apply nth_error_Some. now rewrite N. }
    destruct (nth_error refs i) as [k|] eqn:R;
      [|apply nth_error_None in R; lia].
    destruct (Each i k R) as [link [_ [_ [_ [N' _]]]]].
    rewrite N in N'. injection N' as ->.
    now apply fetch_without_header.
Qed.

Lemma expand_own_payload_witness :
  exists o' q,
    fst (expand Sample.serves_pool Sample.bigip Sample.split_url
           (own Sample.virtual_server) (Sample.in_transaction (VNum 7)))
    = (own o', {| transactionId := VNum 7; sent := [q] |}) /\
    get "pool" o' = Sample.pool_body /\
    lookup "poolReference" o' = lookup "poolReference" Sample.virtual_server /\
    coordination_header q = None.
Proof.
  set (run := expand Sample.serves_pool Sample.bigip Sample.split_url
                (own Sample.virtual_server) (Sample.in_transaction (VNum 7))).
  assert (R : run = (fst (fst run), snd (fst run), Resolved tt)) by reflexivity.
  assert (ND : NoDup (keys Sample.virtual_server)).
  { repeat constructor; simpl; intuition discriminate. }
  assert (UC : unchained (keys Sample.virtual_server)).
  { intros k [<-|[<-|[<-|[]]]]; intros E; try discriminate E; reflexivity. }
  destruct (expand_own_payload _ _ _ _ _ _ _ ND UC R)
    as [o' [reqs [P [S [Len [Each [Keep [_ Hd]]]]]]]].
  destruct reqs as [|q [|q2 reqs]]; try discriminate Len.
  exists o', q. split.
  - change (fst run) with (fst (fst run), snd (fst run)). now rewrite P, S.
  - split; [|split].
    + destruct (Each 0%nat "poolReference"%string eq_refl)
        as [link [r [body [_ [_ [T G]]]]]].
      change (dropSuffix "poolReference" REFERENCE) with "pool"%string in G.
      rewrite G. simpl in T. now injection T.
    + now apply Keep.
    + apply Hd; [reflexivity | now left].
Defined.

(** C4 as worded fails on a field outside the naming convention: the
    virtual server's [pool] path is replaced by the fetched pool. *)
Lemma expand_overwrites_plain_field :
  let run := expand Sample.serves_pool Sample.bigip Sample.split_url
               (own Sample.virtual_server) initial_state in
  endsWith "pool" REFERENCE = false /\
  get "pool" Sample.virtual_server = VStr "/Common/p1" /\
  snd run = Resolved tt /\
  get_prop (this_data (fst (fst run))) "pool" = Some Sample.pool_body /\
  get_prop (this_data (fst (fst run))) "pool"
  <> Some (get "pool" Sample.virtual_server).
Proof. cbv zeta. repeat split. discriminate. Qed.

(** The payload of the specification's example: one GET on
    [/mgmt/tm/ltm/pool/p1?ver=1] without coordination header, and both
    [poolReference] and [pool] afterwards. *)
Lemma expand_pool_reference :
  let link := VObj [("link", VStr "https://host/mgmt/tm/ltm/pool/p1?ver=1")] in
  let run := expand Sample.serves_pool Sample.bigip Sample.split_url
               (own [("poolReference", link)])
               (Sample.in_transaction (VNum 7)) in
  fst (fst run) = own [("poolReference", link); ("pool", Sample.pool_body)] /\
  map (get "method") (sent (snd (fst run))) = [VStr "GET"] /\
  map (get "url") (sent (snd (fst run)))
  = [VStr "https://bigip.example.com/mgmt/tm/ltm/pool/p1?ver=1"] /\
  map coordination_header (sent (snd (fst run))) = [None].
Proof. cbv zeta. repeat split. Qed.

(** [expand(data)] with an object other than [this.data] reads the
    values from [this.data]: with an empty envelope payload nothing is
    fetched for the reference field of the argument. *)
Lemma expand_reads_this_data :
  let link := VObj [("link", VStr "https://host/mgmt/tm/ltm/pool/p1?ver=1")] in
  let p := {| this_data := VObj []; arg_data := Some [("poolReference", link)] |} in
  expand Sample.serves_pool Sample.bigip Sample.split_url p initial_state
  = (p, initial_state, Resolved tt).
Proof. reflexivity. Qed.

(** ** Path helpers *)

Section PathFacts.

Lemma split_nonempty sep s : split sep s <> [].
Proof.
  destruct s as [|ch s]; simpl; [discriminate|].
  destruct (Ascii.eqb ch sep); [discriminate|].
  destruct (split sep s); discriminate.
Qed.

Lemma join_cons_char sep ch piece pieces :
  join sep (String ch piece :: pieces) = String ch (join sep (piece :: pieces)).
Proof. destruct pieces; reflexivity. Qed.

Lemma join_cons_empty sep pieces :
  pieces <> [] -> join sep (EmptyString :: pieces) = (sep ++ join sep pieces)%string.
Proof. destruct pieces; [easy | reflexivity]. Qed.

Lemma join_split_tilde p : join "~" (split SLASH p) = tilde p.
Proof.
  induction p as [|ch p IH]; simpl; [reflexivity|].
  destruct (Ascii.eqb ch SLASH).
  - rewrite join_cons_empty by apply split_nonempty. simpl. now rewrite IH.
  - destruct (split SLASH p) as [|piece pieces] eqn:S.
    + now elim (split_nonempty SLASH p).
    + rewrite join_cons_char. now rewrite IH.
Qed.

Lemma join_split p : join "/" (split SLASH p) = p.
Proof.
  induction p as [|ch p IH]; simpl; [reflexivity|].
  destruct (Ascii.eqb ch SLASH) eqn:E.
  - apply Ascii.eqb_eq in E. subst ch.
    rewrite join_cons_empty by apply split_nonempty. simpl. now rewrite IH.
  - destruct (split SLASH p) as [|piece pieces] eqn:S.
    + now elim (split_nonempty SLASH p).
    + rewrite join_cons_char. now rewrite IH.
Qed.

Lemma split_slashless p : Forall (fun x => slashless x = true) (split SLASH p).
Proof.
  induction p as [|ch p IH]; simpl.
  - now repeat constructor.
  - destruct (Ascii.eqb ch SLASH) eqn:E.
    + constructor; [reflexivity | exact IH].
    + destruct (split SLASH p) as [|piece pieces].
      * repeat constructor. simpl. now rewrite E.
      * inversion IH as [|? ? Hp Hps]. subst. constructor; [|exact Hps].
        simpl. now rewrite E, Hp.
Qed.

Lemma string_app_assoc (a b d : string) :
  ((a ++ b) ++ d)%string = (a ++ b ++ d)%string.
Proof. induction a as [|ch a IH]; simpl; [reflexivity | now rewrite IH]. Qed.

Lemma join_snoc sep l n :
  l <> [] -> join sep (l ++ [n]) = (join sep l ++ sep ++ n)%string.
Proof.
  induction l as [|x l IH]; [easy|]. intros _.
  destruct l as [|y l].
  - reflexivity.
  - change (join sep ((x :: y :: l) ++ [n]))
      with (x ++ sep ++ join sep ((y :: l) ++ [n]))%string.
    rewrite IH by discriminate.
    change (join sep (x :: y :: l)) with (x ++ sep ++ join sep (y :: l))%string.
    now rewrite !string_app_assoc.
Qed.

Lemma first_rev_last l : l <> [] -> first (rev l) = VStr (last l EmptyString).
Proof.
  intros N. rewrite (app_removelast_last EmptyString N) at 1.
  now rewrite rev_app_distr.
Qed.

Lemma tilde_slashless s : slashless (tilde s) = true.
Proof.
  induction s as [|ch s IH]; simpl; [reflexivity|].
  rewrite IH. now destruct (Ascii.eqb ch SLASH) eqn:E; [|rewrite E].
Qed.

Lemma tilde_length s : String.length (tilde s) = String.length s.
Proof. induction s as [|ch s IH]; simpl; [reflexivity | now rewrite IH]. Qed.

Lemma tilde_fixed s : slashless s = true -> tilde s = s.
Proof.
  induction s as [|ch s IH]; simpl; [reflexivity|]. intros H.
  apply andb_true_iff in H. destruct H as [E H].
  apply negb_true_iff in E. rewrite E. now rewrite IH.
Qed.

End PathFacts.

Lemma split_slashless_single p : slashless p = true -> split SLASH p = [p].
Proof.
  induction p as [|ch p IH]; simpl; [reflexivity|]. intros H.
  apply andb_true_iff in H. destruct H as [E H].
  apply negb_true_iff in E. rewrite E. now rewrite (IH H).
Qed.

(** [escapeResourcePath] turns every "/" of a string path into "~" and
    changes nothing else: the result has the length of the path and no
    "/", and escaping it again gives it back. *)
Theorem escapeResourcePath_tilde (p : string) :
  escapeResourcePath (VStr p) = Return (VStr (tilde p)) /\
  String.length (tilde p) = String.length p /\
  slashless (tilde p) = true /\
  escapeResourcePath (VStr (tilde p)) = Return (VStr (tilde p)).
Proof.
  unfold escapeResourcePath. rewrite !join_split_tilde.
  rewrite (tilde_fixed (tilde p) (tilde_slashless p)).
  auto using tilde_length, tilde_slashless.
Qed.

Lemma split_last_piece (p : string) :
  exists init n,
    split SLASH p = (init ++ [n])%list /\
    first (rev (split SLASH p)) = VStr n /\
    slashless n = true.
Proof.
  pose proof (split_nonempty SLASH p) as N.
  pose proof (app_removelast_last EmptyString N) as D.
  exists (removelast (split SLASH p)), (last (split SLASH p) EmptyString).
  split; [exact D|]. split; [apply first_rev_last; exact N|].
  pose proof (split_slashless p) as F. rewrite Forall_forall in F.
  apply F. set (n := last (split SLASH p) EmptyString) in *.
  rewrite D. apply in_or_app. right. now left.
Qed.

(** [resourcePathToName] returns the part of a string path after its
    last "/": the name has no "/", and what precedes it in the path is
    empty or ends with "/". *)
Theorem resourcePathToName_last_segment (p : string) :
  exists pre n,
    resourcePathToName (VStr p) = Return (VStr n) /\
    slashless n = true /\
    p = (pre ++ n)%string /\
    (pre = EmptyString \/ exists q, pre = (q ++ "/")%string).
Proof.
  destruct (split_last_piece p) as [init [n [D [R Sn]]]].
  assert (J : p = join "/" (init ++ [n])).
  { rewrite <- D. symmetry. apply join_split. }
  destruct init as [|x rest].
  - exists EmptyString, n. unfold resourcePathToName. rewrite R.
    repeat split; auto.
  - exists (join "/" (x :: rest) ++ "/")%string, n.
    unfold resourcePathToName. rewrite R. repeat split; auto.
    + rewrite J at 1. rewrite join_snoc by discriminate.
      now rewrite string_app_assoc.
    + right. now exists (join "/" (x :: rest)).
Qed.

(** A name without "/" is its own escaped form and its own last
    segment. *)
Theorem slashless_name_unchanged (p : string) :
  slashless p = true ->
  escapeResourcePath (VStr p) = Return (VStr p) /\
  resourcePathToName (VStr p) = Return (VStr p).
Proof.
  intros H. unfold escapeResourcePath, resourcePathToName.
  now rewrite (split_slashless_single p H).
Qed.

Lemma slashless_name_unchanged_witness :
  escapeResourcePath (VStr "~Common~pool1") = Return (VStr "~Common~pool1") /\
  resourcePathToName (VStr "~Common~pool1") = Return (VStr "~Common~pool1").
Proof. apply (slashless_name_unchanged "~Common~pool1"). reflexivity. Defined.

(** ** Resource operations *)

(** [ltmCreateMonitor] sends nothing unless [datas.defaultsFrom] is a
    non-empty string: the state stays as it was and the promise is
    rejected, with a TypeError when [datas] is [undefined] or [null] or
    when [defaultsFrom] is truthy without being a string, and with the
    plain "requires parent monitor" string when it is falsy. *)
Theorem ltmCreateMonitor_needs_parent
    (transport : list obj -> obj -> outcome) (c : client)
    (datas : value) (s : state) :
  (forall from, get_prop datas "defaultsFrom" = Some (VStr from) ->
                from = EmptyString) ->
  fst (ltmCreateMonitor transport c datas s) = s /\
  match get_prop datas "defaultsFrom" with
  | None => exists m,
      snd (ltmCreateMonitor transport c datas s) = Dispatched (Rejected (TypeError m))
  | Some defaultsFrom =>
      if truthy defaultsFrom
      then exists m,
        snd (ltmCreateMonitor transport c datas s)
        = Dispatched (Rejected (TypeError m))
      else
        snd (ltmCreateMonitor transport c datas s)
        = RejectedWith
            (VStr "ltmCreateMonitor requires parent monitor (data.defaultsFrom")
  end.
Proof.
  intros H. unfold ltmCreateMonitor.
  destruct (get_prop datas "defaultsFrom") as [df|] eqn:G.
  - destruct (truthy df) eqn:T.
    + destruct df as [| | | |from| |];
        try (split; [reflexivity | eexists; reflexivity]).
      rewrite (H from eq_refl) in T. discriminate.
    + split; reflexivity.
  - split; [reflexivity | eexists; reflexivity].
Qed.

Lemma ltmCreateMonitor_needs_parent_witness :
  ltmCreateMonitor Sample.started Sample.bigip
    (VObj [("name", VStr "m1")]) initial_state
  = (initial_state,
     RejectedWith
       (VStr "ltmCreateMonitor requires parent monitor (data.defaultsFrom")).
Proof.
  destruct (ltmCreateMonitor_needs_parent Sample.started Sample.bigip
              (VObj [("name", VStr "m1")]) initial_state) as [H1 H2].
  - intros from E. discriminate E.
  - apply injective_projections; [exact H1 | exact H2].
Defined.

(** With a non-empty string in [datas.defaultsFrom], [ltmCreateMonitor]
    is the POST of [datas] to [/mgmt/tm/ltm/monitor/<parent>], where
    [<parent>] is what [resourcePathToName] gives for that string. *)
Theorem ltmCreateMonitor_posts_to_parent
    (transport : list obj -> obj -> outcome) (c : client)
    (datas : value) (from : string) (s : state) :
  get_prop datas "defaultsFrom" = Some (VStr from) ->
  from <> EmptyString ->
  exists parent,
    resourcePathToName (VStr from) = Return (VStr parent) /\
    slashless parent = true /\
    let r := request transport c
               (POST ("/mgmt/tm/ltm/monitor/" ++ parent) datas) s in
    ltmCreateMonitor transport c datas s = (fst r, Dispatched (snd r)).
Proof.
  intros G N.
  destruct (split_last_piece from) as [init [parent [_ [R S]]]].
  exists parent. split; [unfold resourcePathToName; now rewrite R|].
  split; [exact S|].
  unfold ltmCreateMonitor. rewrite G.
  assert (T : truthy (VStr from) = true).
  { simpl. apply negb_true_iff. now apply String.eqb_neq. }
  rewrite T, R. reflexivity.
Qed.

Lemma ltmCreateMonitor_posts_to_parent_witness :
  map (get "url")
      (sent (fst (ltmCreateMonitor Sample.started Sample.bigip
                    (VObj [("name", VStr "m1");
                           ("defaultsFrom", VStr "/Common/http")])
                    initial_state)))
  = [VStr "https://bigip.example.com/mgmt/tm/ltm/monitor/http"].
Proof.
  destruct (ltmCreateMonitor_posts_to_parent Sample.started Sample.bigip
              (VObj [("name", VStr "m1"); ("defaultsFrom", VStr "/Common/http")])
              "/Common/http" initial_state eq_refl) as [parent [R [_ E]]].
  - discriminate.
  - injection R as <-. cbv zeta in E. rewrite E. reflexivity.
Defined.

(** The four collection getters ask for [expandSubcollections=true]
    exactly when the last [autoExpand(b)] had a truthy [b]; a client on
    which [autoExpand] was never called asks for
    [expandSubcollections=false]. *)
Theorem autoExpand_selects_query
    (transport : list obj -> obj -> outcome) (c : client)
    (b name : value) (i : instance) :
  let q := if truthy b then "expandSubcollections=true"
           else "expandSubcollections=false" in
  core (autoExpand b i) = core i /\
  ltmGetPool transport c name (autoExpand b i)
  = request transport c
      (GET ("/mgmt/tm/ltm/pool/" ++ toString name ++ "?" ++ q)) (core i) /\
  ltmGetPoolMembers transport c name (autoExpand b i)
  = request transport c
      (GET ("/mgmt/tm/ltm/pool/" ++ toString name ++ "/members?" ++ q)) (core i) /\
  gtmGetVirtual transport c name (autoExpand b i)
  = request transport c
      (GET ("/mgmt/tm/ltm/virtual/" ++ toString name ++ "?" ++ q)) (core i) /\
  ltmGetMonitorsByType transport c name (autoExpand b i)
  = request transport c
      (GET ("/mgmt/tm/ltm/monitor/" ++ toString name ++ "?" ++ q)) (core i) /\
  ltmGetPool transport c name new_instance
  = request transport c
      (GET ("/mgmt/tm/ltm/pool/" ++ toString name ++ "?expandSubcollections=false"))
      initial_state.
Proof.
  unfold ltmGetPool, ltmGetPoolMembers, gtmGetVirtual, ltmGetMonitorsByType,
    expandSubcollections, autoExpand. simpl.
  destruct (truthy b); repeat split; reflexivity.
Qed.

(** ** More on the transaction lifecycle *)

Section LifecycleFacts.

Lemma not_in_transaction_null s :
  isInTransactionMode s = false -> transactionId s = VNull.
Proof.
  unfold isInTransactionMode. destruct (transactionId s); simpl; easy.
Qed.

Lemma has_assign_miss k source target :
  has k source = false -> has k (assign target source) = has k target.
Proof. intros H. unfold has. now rewrite lookup_assign_miss. Qed.

Lemma assign_nil_computed c d s :
  assign [] (computed_options c d s) = computed_options c d s.
Proof. unfold computed_options. destruct (truthy (data d)); reflexivity. Qed.

Lemma lookup_assign_hit k v source : forall target,
  NoDup (keys source) -> lookup k source = Some v ->
  lookup k (assign target source) = Some v.
Proof.
  induction source as [|[k' v'] source IH]; intros target ND L; [discriminate|].
  simpl in L. inversion ND as [|? ? NI ND']. subst.
  change (assign target ((k', v') :: source))
    with (assign (set k' v' target) source).
  destruct (k =? k')%string eqn:E.
  - apply String.eqb_eq in E. subst k'. injection L as ->.
    rewrite lookup_assign_miss; [apply lookup_set_same|].
    unfold has. destruct (lookup k source) as [w|] eqn:W; [|reflexivity].
    elim NI. clear - W. induction source as [|[k2 v2] source IH]; [discriminate|].
    simpl in W. destruct (k =? k2)%string eqn:E.
    + apply String.eqb_eq in E. now left.
    + right. now apply IH.
  - now apply IH.
Qed.

Lemma request_options_same_id c d s1 s2 :
  transactionId s1 = transactionId s2 ->
  request_options c d s1 = request_options c d s2.
Proof.
  intros H. unfold request_options, computed_options, request_headers.
  now rewrite H.
Qed.

End LifecycleFacts.

(** In transaction mode [rollbackTransaction] is refused whatever id it
    is given, that of the running transaction included: nothing is sent
    and the state is unchanged. *)
Theorem rollback_in_transaction_rejected
    (transport : list obj -> obj -> outcome) (c : client)
    (tid : value) (s : state) :
  isInTransactionMode s = true ->
  rollbackTransaction transport c tid s
  = (s, Rejected (Error "Bad operation, client is in transaction mode")).
Proof. intros M. unfold rollbackTransaction. now rewrite M. Qed.

Lemma rollback_in_transaction_rejected_witness :
  let s1 := fst (beginTransaction Sample.started Sample.bigip initial_state) in
  rollbackTransaction Sample.started Sample.bigip (transactionId s1) s1
  = (s1, Rejected (Error "Bad operation, client is in transaction mode")).
Proof.
  cbv zeta. apply (rollback_in_transaction_rejected Sample.started Sample.bigip).
  reflexivity.
Defined.

(** Outside transaction mode [rollbackTransaction(id)] sends one request
    and leaves the client outside transaction mode.  Where the overlay
    does not name them, the request is a DELETE on
    [/mgmt/tm/transaction/<id>] without body and without coordination
    header. *)
Theorem rollback_inactive_deletes
    (transport : list obj -> obj -> outcome) (c : client)
    (tid : value) (s : state) :
  isInTransactionMode s = false ->
  exists o,
    fst (rollbackTransaction transport c tid s)
    = {| transactionId := VNull; sent := (sent s ++ [o])%list |} /\
    snd (rollbackTransaction transport c tid s) = classify (transport (sent s) o) /\
    (has "method" (options c) = false -> get "method" o = VStr "DELETE") /\
    (has "url" (options c) = false ->
     get "url" o = VStr (toString (get "url" (params c))
                         ++ "/mgmt/tm/transaction/" ++ toString tid)) /\
    (has "body" (options c) = false -> has "body" o = false) /\
    (has "headers" (options c) = false -> coordination_header o = None).
Proof.
  intros M. unfold rollbackTransaction. rewrite M.
  pose proof (not_in_transaction_null s M) as N.
  eexists. split; [rewrite request_sent, N; reflexivity|].
  split; [apply request_settles|].
  split; [intros H; now rewrite request_options_method|].
  split; [intros H; now rewrite request_options_url|].
  split.
  - intros H. unfold request_options. rewrite has_assign_miss by exact H.
    reflexivity.
  - intros H. rewrite coordination_header_injected by exact H. now rewrite N.
Qed.

Lemma rollback_inactive_deletes_witness :
  exists o,
    sent (fst (rollbackTransaction Sample.started Sample.bigip (VNum 42)
                 initial_state)) = [o] /\
    get "method" o = VStr "DELETE" /\
    get "url" o = VStr "https://bigip.example.com/mgmt/tm/transaction/42" /\
    has "body" o = false /\
    coordination_header o = None.
Proof.
  destruct (rollback_inactive_deletes Sample.started Sample.bigip (VNum 42)
              initial_state eq_refl) as [o [S [_ [M [U [B H]]]]]].
  exists o. rewrite S. split; [reflexivity|].
  split; [now apply M|]. split; [now apply U|]. split; [now apply B | now apply H].
Defined.

(** Whatever the transport answers to the commit, the client is outside
    transaction mode afterwards and exactly one request went out; a
    second [commitTransaction] is then refused without sending. *)
Theorem commit_leaves_inactive
    (transport : list obj -> obj -> outcome) (c : client) (s : state) :
  isInTransactionMode s = true ->
  let s1 := fst (commitTransaction transport c s) in
  transactionId s1 = VNull /\
  length (sent s1) = S (length (sent s)) /\
  commitTransaction transport c s1
  = (s1, Rejected (Error "Bad operation, client is not in transaction mode")).
Proof.
  intros M s1.
  assert (E : s1 = {| transactionId := VNull;
                      sent := (sent s ++ [request_options c
                        {| method := VStr "PATCH";
                           uri := VStr ("/mgmt/tm/transaction/"
                                        ++ toString (transactionId s));
                           data := VObj [("state", VStr "VALIDATING")];
                           ignoreTransaction := VUndef |}
                        {| transactionId := VNull; sent := sent s |}])%list |}).
  { unfold s1, commitTransaction. now rewrite M. }
  rewrite E. simpl. split; [reflexivity|]. split; [|reflexivity].
  rewrite length_app. simpl. lia.
Qed.

Lemma commit_leaves_inactive_witness :
  let failing (_ : list obj) (_ : obj) := NoResponse (VStr "ETIMEDOUT") in
  transactionId
    (fst (commitTransaction failing Sample.bigip (Sample.in_transaction (VNum 42))))
  = VNull.
Proof.
  cbv zeta.
  apply (commit_leaves_inactive (fun _ _ => NoResponse (VStr "ETIMEDOUT"))
           Sample.bigip (Sample.in_transaction (VNum 42))).
  reflexivity.
Defined.

(** Outside transaction mode [beginTransaction] sends exactly one
    request.  When it resolves, it resolves to the client, the
    transport answered with a body, and [transactionId] is that body's
    [transId]; when it does not resolve, [transactionId] is still
    [null]. *)
Theorem begin_stores_transId
    (transport : list obj -> obj -> outcome) (c : client) (s : state) :
  isInTransactionMode s = false ->
  let o := request_options c (POST "/mgmt/tm/transaction" (VObj [])) s in
  let s1 := fst (beginTransaction transport c s) in
  sent s1 = (sent s ++ [o])%list /\
  (forall v, snd (beginTransaction transport c s) = Resolved v ->
     v = VClient /\
     exists r body,
       transport (sent s) o = Response r body /\
       get_prop body "transId" = Some (transactionId s1)) /\
  ((forall v, snd (beginTransaction transport c s) <> Resolved v) ->
   transactionId s1 = VNull).
Proof.
  intros M o s1. pose proof (not_in_transaction_null s M) as N.
  unfold s1, beginTransaction. rewrite M. unfold bind, request.
  fold (POST "/mgmt/tm/transaction" (VObj [])). fold o.
  destruct (classify (transport (sent s) o)) as [e|e|e] eqn:C; simpl.
  - destruct (classify_resolved _ _ C) as [r R].
    destruct (get_prop (env_data e) "transId") as [t|] eqn:G; simpl.
    + split; [reflexivity|]. split.
      * intros v H. injection H as <-. split; [reflexivity|].
        now exists r, (env_data e).
      * intros H. now elim (H VClient).
    + split; [reflexivity|]. split; [discriminate|]. intros _. exact N.
  - split; [reflexivity|]. split; [discriminate|]. intros _. exact N.
  - split; [reflexivity|]. split; [discriminate|]. intros _. exact N.
Qed.

Lemma begin_stores_transId_witness :
  transactionId (fst (beginTransaction Sample.started Sample.bigip initial_state))
  = VNum 14567789009876543.
Proof.
  destruct (begin_stores_transId Sample.started Sample.bigip initial_state eq_refl)
    as [_ [R _]].
  destruct (R VClient eq_refl) as [_ [r [body [T G]]]].
  unfold Sample.started in T. injection T as _ <-.
  change (get_prop _ "transId") with (Some (VNum 14567789009876543)) in G.
  exact (f_equal (fun x => match x with Some v => v | None => VNull end)
                 (eq_sym G)).
Defined.

(** [setTransactionId(tid)] with an id other than [null] puts the
    client in transaction mode without sending anything:
    [getTransactionId] gives the id back, [beginTransaction] is refused,
    and [commitTransaction] is the PATCH for that id, sent from a
    cleared state.  [setTransactionId(null)] takes the client out of
    transaction mode: [getTransactionId] throws. *)
Theorem set_then_get_transaction_id
    (transport : list obj -> obj -> outcome) (c : client)
    (tid : value) (s : state) :
  tid <> VNull ->
  let s1 := setTransactionId tid s in
  sent s1 = sent s /\
  getTransactionId s1 = Return tid /\
  beginTransaction transport c s1
  = (s1, Rejected (Error "Bad operation, client is already in transaction mode")) /\
  commitTransaction transport c s1
  = request transport c
      (PATCH ("/mgmt/tm/transaction/" ++ toString tid)
             (VObj [("state", VStr "VALIDATING")]))
      {| transactionId := VNull; sent := sent s |} /\
  getTransactionId (setTransactionId VNull s)
  = Throw (Error "Bad operation, client is not in transaction mode").
Proof.
  intros N s1.
  assert (M : isInTransactionMode s1 = true).
  { unfold s1, isInTransactionMode. simpl. destruct tid; try reflexivity.
    now elim N. }
  split; [reflexivity|].
  split; [unfold getTransactionId; now rewrite M|].
  split; [unfold beginTransaction; now rewrite M|].
  split; [unfold commitTransaction; now rewrite M | reflexivity].
Qed.

Lemma set_then_get_transaction_id_witness :
  getTransactionId (setTransactionId (VStr "1389812351") initial_state)
  = Return (VStr "1389812351").
Proof.
  apply (set_then_get_transaction_id Sample.started Sample.bigip
           (VStr "1389812351") initial_state).
  discriminate.
Defined.

(** [getTransactionCommands] has no guard: outside transaction mode it
    still sends a request, and unless the overlay names [url] the
    address it asks for is [/mgmt/tm/transaction/null/commands]. *)
Theorem commands_outside_transaction
    (transport : list obj -> obj -> outcome) (c : client) (s : state) :
  isInTransactionMode s = false ->
  exists o,
    fst (getTransactionCommands transport c s)
    = {| transactionId := VNull; sent := (sent s ++ [o])%list |} /\
    (has "url" (options c) = false ->
     get "url" o = VStr (toString (get "url" (params c))
                         ++ "/mgmt/tm/transaction/null/commands")).
Proof.
  intros M. pose proof (not_in_transaction_null s M) as N.
  unfold getTransactionCommands. eexists.
  split; [rewrite request_sent, N; reflexivity|].
  intros H. now rewrite request_options_url by exact H.
Qed.

Lemma commands_outside_transaction_witness :
  map (get "url")
      (sent (fst (getTransactionCommands Sample.started Sample.bigip initial_state)))
  = [VStr "https://bigip.example.com/mgmt/tm/transaction/null/commands"].
Proof.
  destruct (commands_outside_transaction Sample.started Sample.bigip
              initial_state eq_refl) as [o [S U]].
  rewrite S. simpl. now rewrite (U eq_refl).
Defined.

(** ** More on the dispatcher *)

(** The options overlay is merged last: an option the overlay names has
    the overlay's value in what goes to the transport, and every other
    option has the value [request] computed. *)
Theorem overlay_last_write_wins (c : client) (d : descriptor) (s : state) (k : string) :
  NoDup (keys (options c)) ->
  lookup k (request_options c d s)
  = match lookup k (options c) with
    | Some v => Some v
    | None => lookup k (computed_options c d s)
    end.
Proof.
  intros ND. unfold request_options. rewrite assign_nil_computed.
  destruct (lookup k (options c)) as [v|] eqn:L.
  - now apply lookup_assign_hit.
  - apply lookup_assign_miss. unfold has. now rewrite L.
Qed.

Lemma overlay_last_write_wins_witness :
  let c := {| params := Sample.bigip_params;
              options := [("timeout", VNum 30000)] |} in
  lookup "timeout" (request_options c Sample.get_pool initial_state)
  = Some (VNum 30000) /\
  lookup "json" (request_options c Sample.get_pool initial_state)
  = Some (VBool true).
Proof.
  cbv zeta. split.
  - rewrite overlay_last_write_wins; [reflexivity|].
    repeat constructor. simpl. tauto.
  - rewrite overlay_last_write_wins; [reflexivity|].
    repeat constructor. simpl. tauto.
Defined.

(** A request has a [body] exactly when the descriptor's [data] is
    truthy, and then it is that [data]: [null], [0], [false] and the
    empty string are never sent (the overlay not naming [body]). *)
Theorem body_only_when_truthy (c : client) (d : descriptor) (s : state) :
  has "body" (options c) = false ->
  lookup "body" (request_options c d s)
  = if truthy (data d) then Some (data d) else None.
Proof.
  intros H. unfold request_options. rewrite lookup_assign_miss by exact H.
  rewrite assign_nil_computed. unfold computed_options.
  destruct (truthy (data d)); reflexivity.
Qed.

Lemma body_only_when_truthy_witness :
  lookup "body"
    (request_options Sample.bigip (PATCH "/mgmt/tm/ltm/pool/p1" (VStr "")) initial_state)
  = None.
Proof.
  apply (body_only_when_truthy Sample.bigip
           (PATCH "/mgmt/tm/ltm/pool/p1" (VStr "")) initial_state).
  reflexivity.
Defined.

(** Every request whose overlay leaves these options alone goes to
    [params.url] followed by the descriptor's [uri], with the
    credentials of [params] as [auth], a timeout of 2000, JSON on, and
    [params.strict] as [strictSSL]. *)
Theorem request_fixed_options (c : client) (d : descriptor) (s : state) :
  (forall k, In k ["url"; "auth"; "timeout"; "json"; "strictSSL"]%string ->
             has k (options c) = false) ->
  let o := request_options c d s in
  get "url" o = VStr (toString (get "url" (params c)) ++ toString (uri d)) /\
  get "auth" o = VObj [("user", get "user" (params c));
                       ("pass", get "pass" (params c))] /\
  get "timeout" o = VNum 2000 /\
  get "json" o = VBool true /\
  get "strictSSL" o = get "strict" (params c).
Proof.
  intros H o. unfold o, request_options. rewrite assign_nil_computed.
  rewrite !get_assign_miss by (apply H; simpl; tauto).
  unfold computed_options.
  destruct (truthy (data d)); repeat split; reflexivity.
Qed.

Lemma request_fixed_options_witness :
  get "timeout" (request_options Sample.bigip Sample.get_pool initial_state)
  = VNum 2000.
Proof.
  apply (request_fixed_options Sample.bigip Sample.get_pool initial_state).
  intros k _. reflexivity.
Defined.

(** ** More on outcome classification *)

(** A response resolves the call exactly when its status code is 200 or
    0, and the envelope then holds the response, its body as it came,
    and the client. *)
Theorem resolves_iff_200 (r : response) (body : value) :
  (statusCode r = 200 \/ statusCode r = 0 ->
   classify (Response r body)
   = Resolved {| env_request := r; env_data := body; env_client := VClient |}) /\
  (forall e, classify (Response r body) = Resolved e ->
             statusCode r = 200 \/ statusCode r = 0).
Proof.
  unfold classify. split.
  - intros [E | E]; rewrite E; reflexivity.
  - intros e H.
    destruct (statusCode r =? 0) eqn:Z0; [right; now apply Z.eqb_eq|].
    destruct (statusCode r =? 200) eqn:Z2; [left; now apply Z.eqb_eq|].
    simpl in H. destruct (get_prop body "message"); discriminate.
Qed.

Lemma resolves_iff_200_witness :
  classify (Response Sample.ok Sample.pool_body)
  = Resolved {| env_request := Sample.ok; env_data := Sample.pool_body;
                env_client := VClient |}.
Proof.
  apply (resolves_iff_200 Sample.ok Sample.pool_body). now left.
Defined.

(** A response with a body object and a status other than 200 rejects
    the call, 201 Created and the other 2xx codes included.  The error
    has the status code as [httpStatus]; its message is the body's
    [message] converted to a string, or empty when the body has none.
    The client's [transactionId] is not touched. *)
Theorem non_200_rejects_with_status
    (transport : list obj -> obj -> outcome) (c : client)
    (d : descriptor) (s : state) (r : response) (o : obj) :
  transport (sent s) (request_options c d s) = Response r (VObj o) ->
  statusCode r <> 0 -> statusCode r <> 200 ->
  exists e,
    snd (request transport c d s) = Rejected (RestError e) /\
    get "httpStatus" e = VNum (statusCode r) /\
    error_message e
    = match get "message" o with
      | VUndef => VStr ""
      | m => VStr (toString m)
      end /\
    transactionId (fst (request transport c d s)) = transactionId s.
Proof.
  intros T Z0 Z2.
  destruct (classify_api_failure r o Z0 Z2) as [e [C [M S]]].
  exists e. rewrite request_settles, T. auto.
Qed.

Lemma non_200_rejects_with_status_witness :
  let created (_ : list obj) (_ : obj) :=
    Response {| statusCode := 201 |} (VObj [("name", VStr "p1")]) in
  exists e,
    snd (ltmCreatePool created Sample.bigip (VObj [("name", VStr "p1")])
           initial_state) = Rejected (RestError e) /\
    get "httpStatus" e = VNum 201 /\
    error_message e = VStr "".
Proof.
  cbv zeta.
  destruct (non_200_rejects_with_status
              (fun _ _ => Response {| statusCode := 201 |} (VObj [("name", VStr "p1")]))
              Sample.bigip
              (POST "/mgmt/tm/ltm/pool" (VObj [("name", VStr "p1")]))
              initial_state {| statusCode := 201 |} [("name", VStr "p1")] eq_refl)
    as [e [R [H [M _]]]]; try discriminate.
  exists e. auto.
Defined.

(** Without a response the call is rejected with an error whose message
    is the transport error's message as a string, and whose [httpStatus]
    property is there with the value [undefined]; the request counts as
    sent and [transactionId] is not touched. *)
Theorem transport_failure_rejects
    (transport : list obj -> obj -> outcome) (c : client)
    (d : descriptor) (s : state) (m : value) :
  transport (sent s) (request_options c d s) = NoResponse m ->
  exists e,
    request transport c d s
    = ({| transactionId := transactionId s;
          sent := (sent s ++ [request_options c d s])%list |},
       Rejected (RestError e)) /\
    lookup "httpStatus" e = Some VUndef /\
    error_message e
    = match m with VUndef => VStr "" | _ => VStr (toString m) end.
Proof.
  intros T. unfold request. rewrite T. simpl.
  eexists. split; [reflexivity|].
  unfold IControlRestError, error_message. simpl.
  destruct m; split; reflexivity.
Qed.

Lemma transport_failure_rejects_witness :
  let failing (_ : list obj) (_ : obj) := NoResponse (VStr "ETIMEDOUT") in
  exists e,
    snd (request failing Sample.bigip Sample.get_pool initial_state)
    = Rejected (RestError e) /\
    error_message e = VStr "ETIMEDOUT".
Proof.
  cbv zeta.
  destruct (transport_failure_rejects (fun _ _ => NoResponse (VStr "ETIMEDOUT"))
              Sample.bigip Sample.get_pool initial_state (VStr "ETIMEDOUT") eq_refl)
    as [e [R [_ M]]].
  exists e. split; [now rewrite R | exact M].
Defined.

(** ** More on the factory *)

Section FactoryDefaults.

Lemma set_same k v o : lookup k o = Some v -> set k v o = o.
Proof.
  induction o as [|[k' v'] o IH]; simpl; [discriminate|].
  destruct (k =? k')%string eqn:E.
  - apply String.eqb_eq in E. subst k'. now intros [= ->].
  - intros L. now rewrite IH.
Qed.

Lemma or_else_null_twice v : or_else (or_else v VNull) VNull = or_else v VNull.
Proof. unfold or_else. destruct (truthy v) eqn:T; [now rewrite T | reflexivity]. Qed.

End FactoryDefaults.

Lemma iControlRest_completes (isURL : string -> bool) (p : value) (ps : obj) :
  iControlRest isURL p = Return ps ->
  let given := as_obj (or_else p (VObj [])) in
  get "strict" ps = VBool (truthy (get "strict" given)) /\
  get "logger" ps = or_else (get "logger" given) VNull /\
  (forall k, k <> "strict"%string -> k <> "logger"%string ->
             lookup k ps = lookup k given).
Proof.
  intros H given.
  destruct (iControlRest_returns isURL p ps H) as [-> _]. fold given.
  split; [|split].
  - rewrite get_set_other by discriminate. apply get_set_same.
  - rewrite get_set_same. now rewrite get_set_other by discriminate.
  - intros k Ns Nl. now rewrite !lookup_set_other.
Qed.

(** The factory completes the parameters it accepts: [strict] becomes
    the boolean [!!strict], [logger] becomes [null] when it is falsy,
    and every other property is kept as given. *)
Theorem factory_defaults (isURL : string -> bool) (p : value) (ps : obj) :
  iControlRest isURL p = Return ps ->
  let given := as_obj (or_else p (VObj [])) in
  get "strict" ps = VBool (truthy (get "strict" given)) /\
  get "logger" ps = or_else (get "logger" given) VNull /\
  (forall k, k <> "strict"%string -> k <> "logger"%string ->
             lookup k ps = lookup k given).
Proof.
  intros H given.
  destruct (iControlRest_returns isURL p ps H) as [E _]. fold given in E.
  split; [|split].
  - rewrite E, get_set_other by discriminate. apply get_set_same.
  - rewrite E, get_set_same. now rewrite get_set_other by discriminate.
  - intros k Ns Nl. rewrite E. now rewrite !lookup_set_other.
Qed.

Lemma factory_defaults_witness :
  exists ps,
    iControlRest Sample.https_only
      (VObj [("url", VStr "https://bigip.example.com");
             ("user", VStr "admin"); ("pass", VStr "secret");
             ("strict", VNum 1)]) = Return ps /\
    get "strict" ps = VBool true /\
    get "logger" ps = VNull.
Proof.
  eexists. split; [reflexivity|].
  match goal with
  | |- get "strict" ?ps = _ /\ _ =>
      destruct (factory_defaults Sample.https_only
        (VObj [("url", VStr "https://bigip.example.com");
               ("user", VStr "admin"); ("pass", VStr "secret");
               ("strict", VNum 1)]) ps eq_refl) as [S [L _]]
  end.
  split; [exact S | exact L].
Defined.

(** Parameters the factory has completed are accepted again and come
    back unchanged. *)
Theorem factory_idempotent (isURL : string -> bool) (p : value) (ps : obj) :
  iControlRest isURL p = Return ps ->
  iControlRest isURL (VObj ps) = Return ps.
Proof.
  intros H.
  destruct (iControlRest_completes isURL p ps H) as [S [L K]].
  destruct (iControlRest_returns isURL p ps H)
    as [E [[u [U [V T]]] [Us Pa]]].
  set (given := as_obj (or_else p (VObj []))) in *.
  assert (G : forall k, k <> "strict"%string -> k <> "logger"%string ->
                        get k ps = get k given).
  { intros k N1 N2. unfold get. now rewrite K. }
  unfold iControlRest. simpl as_obj. simpl or_else.
  change (as_obj (or_else (VObj ps) (VObj []))) with ps.
  rewrite (G "url"%string), U, V, T by discriminate. simpl.
  rewrite (G "user"%string), (G "pass"%string) by discriminate.
  assert (S' : set "strict" (VBool (truthy (get "strict" ps))) ps = ps).
  { apply set_same. rewrite S. simpl. rewrite E.
    rewrite lookup_set_other by discriminate. apply lookup_set_same. }
  assert (L' : set "logger" (or_else (get "logger" ps) VNull) ps = ps).
  { apply set_same. rewrite L, or_else_null_twice. rewrite E at 1.
    rewrite lookup_set_same. f_equal.
    now rewrite get_set_other by discriminate. }
  destruct (get "user" given); try (now elim Us);
    destruct (get "pass" given); try (now elim Pa);
    now rewrite S', L'.
Qed.

Lemma factory_idempotent_witness :
  exists ps,
    iControlRest Sample.https_only (VObj Sample.bigip_params) = Return ps /\
    iControlRest Sample.https_only (VObj ps) = Return ps.
Proof.
  eexists. split; [reflexivity|].
  apply (factory_idempotent Sample.https_only (VObj Sample.bigip_params)).
  reflexivity.
Defined.

(** [transaction()] on accepted parameters sends one request and no
    more: a POST of [{}] to the base URL followed by
    [/mgmt/tm/transaction], with the given credentials, without
    coordination header, and with a boolean [strictSSL] that is [false]
    unless [strict] was given truthy. *)
Theorem transaction_first_request
    (transport : list obj -> obj -> outcome)
    (isURL : string -> bool) (p : value) (ps : obj) :
  iControlRest isURL p = Return ps ->
  let given := as_obj (or_else p (VObj [])) in
  exists u,
    get "url" given = VStr u /\
    sent (fst (transaction transport ps))
    = [ [ ("method", VStr "POST");
          ("url", VStr (u ++ "/mgmt/tm/transaction"));
          ("auth", VObj [("user", get "user" given); ("pass", get "pass" given)]);
          ("headers", VObj []);
          ("timeout", VNum 2000);
          ("json", VBool true);
          ("strictSSL", VBool (truthy (get "strict" given)));
          ("body", VObj []) ] ].
Proof.
  intros H given.
  destruct (iControlRest_completes isURL p ps H) as [S [_ K]].
  destruct (iControlRest_returns isURL p ps H) as [_ [[u [U _]] _]].
  fold given in S, K, U. exists u. split; [exact U|].
  assert (G : forall k, k <> "strict"%string -> k <> "logger"%string ->
                        get k ps = get k given).
  { intros k N1 N2. unfold get. now rewrite K. }
  unfold transaction, beginTransaction. simpl. unfold bind, request.
  assert (O : request_options (new_client ps VUndef)
                {| method := VStr "POST"; uri := VStr "/mgmt/tm/transaction";
                   data := VObj []; ignoreTransaction := VUndef |} initial_state
              = [ ("method", VStr "POST");
                  ("url", VStr (u ++ "/mgmt/tm/transaction"));
                  ("auth", VObj [("user", get "user" given);
                                 ("pass", get "pass" given)]);
                  ("headers", VObj []);
                  ("timeout", VNum 2000);
                  ("json", VBool true);
                  ("strictSSL", VBool (truthy (get "strict" given)));
                  ("body", VObj []) ]).
  { unfold request_options, computed_options, new_client. simpl.
    rewrite (G "url"%string), (G "user"%string), (G "pass"%string), U, S
      by discriminate.
    reflexivity. }
  rewrite O.
  destruct (classify _) as [e|e|e]; simpl; try reflexivity.
  destruct (get_prop (env_data e) "transId"); reflexivity.
Qed.

Lemma transaction_first_request_witness :
  map (get "url")
      (sent (fst (transaction Sample.started
                    (set "logger" VNull
                       (set "strict" (VBool false) Sample.bigip_params)))))
  = [VStr "https://bigip.example.com/mgmt/tm/transaction"].
Proof.
  destruct (transaction_first_request Sample.started Sample.https_only
              (VObj Sample.bigip_params)
              (set "logger" VNull (set "strict" (VBool false) Sample.bigip_params))
              eq_refl) as [u [U S]].
  rewrite S. simpl in U. injection U as <-. reflexivity.
Defined.

(** ** More on reference expansion *)

Section ExpandInvariants.

Variable transport : list obj -> obj -> outcome.
Variable c : client.
Variable urlparse : string -> value * value.

Lemma string_length_app (a b : string) :
  String.length (a ++ b) = (String.length a + String.length b)%nat.
Proof. induction a as [|ch a IH]; simpl; [reflexivity | now rewrite IH]. Qed.

(** What a turn of the loop does to the state: nothing, or one bypass
    request added. *)
Lemma expand_key_state k p s :
  let '(p', s', r) := expand_key transport c urlparse k p s in
  s' = s \/
  exists link,
    s' = {| transactionId := transactionId s;
            sent := (sent s ++ [request_options c (fetch urlparse link) s])%list |}.
Proof.
  unfold expand_key.
  destruct (get_prop (this_data p) k) as [val|]; [|now left].
  destruct (endsWith k REFERENCE); [|now left].
  destruct (reference_link val) as [l|]; [|now left].
  destruct l as [| | | |link| |]; try (now left).
  unfold request.
  destruct (classify _); right; now exists link.
Qed.


End ExpandInvariants.

(** Stripping the suffix from a field name that ends in "Reference"
    gives a name nine characters shorter, so never the field's own
    name: an expansion does not write over the field it reads. *)
Theorem stripped_name_differs (k : string) :
  endsWith k REFERENCE = true ->
  (String.length (dropSuffix k REFERENCE) + 9)%nat = String.length k /\
  dropSuffix k REFERENCE <> k.
Proof.
  intros E. pose proof (endsWith_dropSuffix k REFERENCE E) as D.
  assert (L : (String.length (dropSuffix k REFERENCE) + 9)%nat = String.length k).
  { rewrite D at 2. now rewrite string_length_app. }
  split; [exact L|]. intros F. rewrite F in L. lia.
Qed.

Lemma stripped_name_differs_witness :
  dropSuffix "poolReference" REFERENCE <> "poolReference"%string.
Proof. apply (stripped_name_differs "poolReference"). reflexivity. Defined.

(** However [expand] ends, it leaves [transactionId] alone, and every
    request it sends is the dispatch of a [fetch] descriptor, which
    opts out of the transaction: in transaction mode too, none of them
    has a coordination header (the overlay not naming [headers]). *)
Theorem expand_bypasses_transaction
    (transport : list obj -> obj -> outcome) (c : client)
    (urlparse : string -> value * value) (p : payloads) (s : state) :
  let s' := snd (fst (expand transport c urlparse p s)) in
  transactionId s' = transactionId s /\
  exists reqs,
    sent s' = (sent s ++ reqs)%list /\
    forall q, In q reqs ->
      (exists link, q = request_options c (fetch urlparse link) s) /\
      (has "headers" (options c) = false -> coordination_header q = None).
Proof.
  unfold expand. generalize (expand_keys p) as ks.
  intros ks. revert p s.
  induction ks as [|k ks IH]; intros p s; simpl.
  - split; [reflexivity|]. exists []. split; [now rewrite app_nil_r | easy].
  - pose proof (expand_key_state transport c urlparse k p s) as K.
    destruct (expand_key transport c urlparse k p s) as [[p1 s1] r1].
    assert (Step : transactionId s1 = transactionId s /\
              exists reqs, sent s1 = (sent s ++ reqs)%list /\
                forall q, In q reqs ->
                  (exists link, q = request_options c (fetch urlparse link) s) /\
                  (has "headers" (options c) = false ->
                   coordination_header q = None)).
    { destruct K as [-> | [link ->]].
      - split; [reflexivity|]. exists []. split; [now rewrite app_nil_r | easy].
      - split; [reflexivity|]. eexists. split; [reflexivity|].
        intros q [<-|[]]. split; [now exists link|].
        intros H. now apply fetch_without_header. }
    destruct r1 as [[]|e|e]; try exact Step.
    destruct Step as [T1 [reqs1 [S1 Q1]]].
    destruct (IH p1 s1) as [T2 [reqs2 [S2 Q2]]].
    split; [now rewrite T2|].
    exists (reqs1 ++ reqs2)%list. split.
    + rewrite S2, S1. now rewrite app_assoc.
    + intros q I. apply in_app_or in I. destruct I as [I | I]; [now apply Q1|].
      destruct (Q2 q I) as [[link ->] H2]. split; [|exact H2].
      exists link. now apply request_options_same_id.
Qed.



(** A payload none of whose field names ends in "Reference" is left as
    it is and nothing is fetched, whatever its values are - a [link]
    under another name is not followed.  (The envelope's payload must
    be readable when there are fields to visit.) *)
Theorem expand_without_reference_names
    (transport : list obj -> obj -> outcome) (c : client)
    (urlparse : string -> value * value) (p : payloads) (s : state) :
  (forall k, In k (expand_keys p) -> endsWith k REFERENCE = false) ->
  expand_keys p = [] \/ (this_data p <> VUndef /\ this_data p <> VNull) ->
  expand transport c urlparse p s = (p, s, Resolved tt).
Proof.
  unfold expand. generalize (expand_keys p) as ks.
  intros ks N R.
  assert (R' : ks = [] \/ forall k, get_prop (this_data p) k <> None).
  { destruct R as [R | [R1 R2]]; [now left | right].
    intros k. destruct (this_data p); simpl; congruence. }
  clear R. induction ks as [|k ks IH]; simpl; [reflexivity|].
  destruct R' as [R' | R']; [discriminate|].
  unfold expand_key at 1.
  destruct (get_prop (this_data p) k) as [val|] eqn:G; [|now elim (R' k)].
  rewrite (N k (or_introl eq_refl)).
  apply IH; [intros k0 I; apply N; now right | now right].
Qed.

Lemma expand_without_reference_names_witness :
  let o := [("name", VStr "vs1");
            ("pool", VObj [("link", VStr "https://host/mgmt/tm/ltm/pool/p1")])] in
  expand Sample.serves_pool Sample.bigip Sample.split_url (own o) initial_state
  = (own o, initial_state, Resolved tt).
Proof.
  cbv zeta.
  apply (expand_without_reference_names Sample.serves_pool Sample.bigip
           Sample.split_url).
  - intros k [<-|[<-|[]]]; reflexivity.
  - right. split; discriminate.
Defined.

(** When the envelope has no payload ([undefined] or [null]) and
    [expand] is given an object with at least one field, the call is
    rejected with a TypeError on the first field, before anything is
    fetched or written. *)
Theorem expand_on_empty_envelope
    (transport : list obj -> obj -> outcome) (c : client)
    (urlparse : string -> value * value)
    (p : payloads) (k : string) (v : value) (d : obj) (s : state) :
  this_data p = VUndef \/ this_data p = VNull ->
  arg_data p = Some ((k, v) :: d) ->
  exists m, expand transport c urlparse p s = (p, s, Rejected (TypeError m)).
Proof.
  intros T A. unfold expand, expand_keys. rewrite A. simpl.
  unfold expand_key. destruct T as [-> | ->]; simpl; eauto.
Qed.

Lemma expand_on_empty_envelope_witness :
  let p := {| this_data := VUndef;
              arg_data := Some Sample.virtual_server |} in
  exists m,
    expand Sample.serves_pool Sample.bigip Sample.split_url p initial_state
    = (p, initial_state, Rejected (TypeError m)).
Proof.
  cbv zeta.
  apply (expand_on_empty_envelope Sample.serves_pool Sample.bigip Sample.split_url
           {| this_data := VUndef; arg_data := Some Sample.virtual_server |}
           "name" (VStr "vs1") (tl Sample.virtual_server)).
  - now left.
  - reflexivity.
Defined.


